(** * Document service: a shallow embedding of the processing pipeline

    The development follows the Python sources of the document service:

    - [models/document.py]: the [Document] record and the methods that
      mutate it ([update_processing_status], [set_classification],
      [store_ocr_result]);
    - [services/classification_service.py]: [preprocess_text] and
      [classify_document] with its confidence threshold;
    - [services/ocr_service.py]: the per-page loop of [process_document],
      [extract_fields], [validate_results] and
      [_calculate_field_confidence].

    Modelling conventions.

    - Python numbers (int and float alike) are exact rationals [Q], compared
      with [==]; the rounding error of single float operations is not
      modelled, the decimal rounding of [round(x, 2)] is.  The one
      exception is [_calculate_field_confidence], whose result depends on
      the rounding of each product at decimal ties: next to its rational
      reading, on which the bounds are proved, module [Binary64] gives it
      on IEEE 754 binary64 numbers, and the equation of its formula is
      stated there.
    - A [str] is a [string] of ASCII characters; the character predicates
      ([isdigit], [isalnum], [isspace]) are the ASCII part of Python's.
    - A [dict] with string keys is a [gmap string _]; iteration order plays
      no role in what is proved.
    - A method is a function from the document before the call to an
      outcome and the document after the call, so that a mutation made
      before an exception is raised stays visible.
    - Clock readings ([datetime.utcnow()], elapsed seconds) are arguments.
    - Logging is a no-op, except where evaluating the arguments of the log
      call can itself raise.
    - Collaborators outside the repository (object storage, the PDF reader,
      the vectorizer and the forest model, the image pipeline and the
      recognition engine) are represented by what they return.
    - A global name is looked up among the names the module binds;
      [ocr_service.py] reads [time], [io] and [cv2] without importing
      them, so that [process_document] raises [NameError] where it first
      reads [time].  The page loop, the compiled result and the closing
      validation and storing are modelled as the code has them, and the
      properties of these lines are stated on them directly. *)

From Stdlib Require Import QArith Qround Lqa ZArith Lia List Ascii String Bool.
From Stdlib Require Floats.SpecFloat.
From stdpp Require Import gmap strings.

(** ** Exceptions and outcomes *)

(** The exception classes the modelled code raises.  The design document
    speaks of a ValidationError; the source raises the builtin
    [ValueError] in those places. *)
Inductive Exn : Type :=
| ValueError (msg : string)
| KeyError (key : string)
| TypeError (msg : string)
| IndexError (msg : string)
| UnboundLocalError (name : string)
| NameError (name : string).

Inductive Res (A : Type) : Type :=
| Ok (a : A)
| Raise (e : Exn).
Arguments Ok {A} a.
Arguments Raise {A} e.

Definition res_bind {A B} (r : Res A) (k : A -> Res B) : Res B :=
  match r with
  | Ok a => k a
  | Raise e => Raise e
  end.

Declare Scope res_scope.
Delimit Scope res_scope with res.
Notation "x <- r ;; k" := (res_bind r (fun x => k))
  (at level 100, r at next level, right associativity) : res_scope.

(** ** Characters and strings *)

Definition LF : ascii := "010"%char.
Definition TAB : ascii := "009"%char.

Definition code (c : ascii) : nat := nat_of_ascii c.

Definition between (lo hi n : nat) : bool := Nat.leb lo n && Nat.leb n hi.

(** [c.isdigit()], [c.isalpha()], [c.isalnum()], [c.isspace()] on ASCII. *)
Definition isdigit (c : ascii) : bool := between 48 57 (code c).
Definition isupper (c : ascii) : bool := between 65 90 (code c).
Definition islower (c : ascii) : bool := between 97 122 (code c).
Definition isalpha (c : ascii) : bool := isupper c || islower c.
Definition isalnum (c : ascii) : bool := isalpha c || isdigit c.
Definition isspace (c : ascii) : bool :=
  between 9 13 (code c) || between 28 32 (code c).

Definition lower_char (c : ascii) : ascii :=
  if isupper c then ascii_of_nat (code c + 32) else c.

Fixpoint string_map (f : ascii -> ascii) (s : string) : string :=
  match s with
  | EmptyString => EmptyString
  | String c s' => String (f c) (string_map f s')
  end.

Fixpoint string_filter (p : ascii -> bool) (s : string) : string :=
  match s with
  | EmptyString => EmptyString
  | String c s' => if p c then String c (string_filter p s') else string_filter p s'
  end.

(** [any(p(c) for c in s)] *)
Fixpoint string_any (p : ascii -> bool) (s : string) : bool :=
  match s with
  | EmptyString => false
  | String c s' => p c || string_any p s'
  end.

(** [s.lower()] *)
Definition lower (s : string) : string := string_map lower_char s.

(** [s.lstrip()], [s.rstrip()], [s.strip()] *)
Fixpoint lstrip (s : string) : string :=
  match s with
  | EmptyString => EmptyString
  | String c s' => if isspace c then lstrip s' else s
  end.

Fixpoint rstrip (s : string) : string :=
  match s with
  | EmptyString => EmptyString
  | String c s' =>
      match rstrip s' with
      | EmptyString => if isspace c then EmptyString else String c EmptyString
      | t => String c t
      end
  end.

Definition strip (s : string) : string := rstrip (lstrip s).

(** [not s]: the empty string is the only falsy string. *)
Definition is_empty (s : string) : bool :=
  match s with
  | EmptyString => true
  | String _ _ => false
  end.

(** [s.split(sep)] for a one-character separator: the list is never empty,
    and empty fields are kept. *)
Fixpoint split_on (sep : ascii) (s : string) : list string :=
  match s with
  | EmptyString => [EmptyString]
  | String c s' =>
      if Ascii.eqb c sep then EmptyString :: split_on sep s'
      else
        match split_on sep s' with
        | [] => [String c EmptyString]
        | w :: ws => String c w :: ws
        end
  end.

(** [s.split()]: maximal runs of non-whitespace characters. *)
Fixpoint split_ws_aux (s : string) : string * list string :=
  match s with
  | EmptyString => (EmptyString, [])
  | String c s' =>
      let '(w, ws) := split_ws_aux s' in
      if isspace c
      then (EmptyString, if is_empty w then ws else w :: ws)
      else (String c w, ws)
  end.

Definition split_ws (s : string) : list string :=
  let '(w, ws) := split_ws_aux s in
  if is_empty w then ws else w :: ws.

(** [sep.join(l)] *)
Fixpoint join (sep : string) (l : list string) : string :=
  match l with
  | [] => EmptyString
  | [w] => w
  | w :: ws => String.append w (String.append sep (join sep ws))
  end.

(** [s.replace(a, b)] for single characters. *)
Definition replace_char (a b : ascii) (s : string) : string :=
  string_map (fun c => if Ascii.eqb c a then b else c) s.

(** ** Numbers *)

(** [sum(l)] and [sum(l) / len(l)] *)
Definition Qsum (l : list Q) : Q := fold_left Qplus l 0%Q.

Definition mean (l : list Q) : Q := (Qsum l / inject_Z (Z.of_nat (length l)))%Q.

(** Rounding to the nearest integer, ties to the even neighbour. *)
Definition round_half_even (x : Q) : Z :=
  let f := Qfloor x in
  match Qcompare (x - inject_Z f) (1 # 2) with
  | Lt => f
  | Gt => (f + 1)%Z
  | Eq => if Z.even f then f else (f + 1)%Z
  end.

(** [round(x, 2)] *)
Definition round2 (x : Q) : Q := (inject_Z (round_half_even (x * 100)) / 100)%Q.

(** [a < b], [a <= b], [a >= b] as Python booleans. *)
Definition Qltb (a b : Q) : bool := negb (Qle_bool b a).
Definition Qleb (a b : Q) : bool := Qle_bool a b.
Definition Qgeb (a b : Q) : bool := Qle_bool b a.

(** ** Dictionaries *)

(** A reading of the UTC clock, in microseconds. *)
Definition Time : Type := Z.

(** The values stored in result and metadata dictionaries. [VIso t] is the
    string [t.isoformat()] of a clock reading. *)
#[warnings="-register-all"]
Inductive Value : Type :=
| VNone
| VStr (s : string)
| VNum (q : Q)
| VIso (t : Time)
| VDict (d : gmap string Value).

Abbreviation Dict := (gmap string Value).

(** [d[key]] *)
Definition getitem (d : Dict) (key : string) : Res Value :=
  match d !! key with
  | Some v => Ok v
  | None => Raise (KeyError key)
  end.

(** [len(v)] *)
Definition py_len (v : Value) : Res nat :=
  match v with
  | VStr s => Ok (String.length s)
  | VIso t => Ok (if Z.eqb (t mod 1000000) 0 then 19 else 26)
  | VDict d => Ok (size d)
  | VNone => Raise (TypeError "object of type 'NoneType' has no len()")
  | VNum _ => Raise (TypeError "object of type 'float' has no len()")
  end.

(** A value used as a number in arithmetic or in a comparison with one. *)
Definition as_num (v : Value) : Res Q :=
  match v with
  | VNum q => Ok q
  | _ => Raise (TypeError "unsupported operand type(s)")
  end.

(** ** [models/document.py] *)

Definition DOCUMENT_TYPES : list string :=
  ["ISO_APPLICATION"; "BANK_STATEMENT"; "VOIDED_CHECK"; "BUSINESS_LICENSE"; "TAX_RETURN"].

Definition PROCESSING_STATUSES : list string :=
  ["PENDING"; "PROCESSING"; "COMPLETED"; "FAILED"].

(** The dataclass [Document]; [None] is the unset state of an optional
    field. *)
Record Document : Type := mkDocument {
  id : string;
  application_id : string;
  file_name : string;
  file_type : string;
  mime_type : string;
  file_size : Z;
  storage_path : option string;
  document_type : option string;
  processing_status : string;
  metadata : Dict;
  classification_result : option string;
  ocr_result : Dict;
  created_at : Time;
  updated_at : Time;
  created_by : string;
  updated_by : string
}.

(** Attribute assignments [self.f = v]. *)
Definition set_file_size (v : Z) (d : Document) : Document :=
  mkDocument (id d) (application_id d) (file_name d) (file_type d) (mime_type d)
    v (storage_path d) (document_type d) (processing_status d) (metadata d)
    (classification_result d) (ocr_result d) (created_at d) (updated_at d)
    (created_by d) (updated_by d).

Definition set_storage_path (v : option string) (d : Document) : Document :=
  mkDocument (id d) (application_id d) (file_name d) (file_type d) (mime_type d)
    (file_size d) v (document_type d) (processing_status d) (metadata d)
    (classification_result d) (ocr_result d) (created_at d) (updated_at d)
    (created_by d) (updated_by d).

Definition set_document_type (v : option string) (d : Document) : Document :=
  mkDocument (id d) (application_id d) (file_name d) (file_type d) (mime_type d)
    (file_size d) (storage_path d) v (processing_status d) (metadata d)
    (classification_result d) (ocr_result d) (created_at d) (updated_at d)
    (created_by d) (updated_by d).

Definition set_processing_status (v : string) (d : Document) : Document :=
  mkDocument (id d) (application_id d) (file_name d) (file_type d) (mime_type d)
    (file_size d) (storage_path d) (document_type d) v (metadata d)
    (classification_result d) (ocr_result d) (created_at d) (updated_at d)
    (created_by d) (updated_by d).

Definition set_metadata (v : Dict) (d : Document) : Document :=
  mkDocument (id d) (application_id d) (file_name d) (file_type d) (mime_type d)
    (file_size d) (storage_path d) (document_type d) (processing_status d) v
    (classification_result d) (ocr_result d) (created_at d) (updated_at d)
    (created_by d) (updated_by d).

Definition set_classification_result (v : option string) (d : Document) : Document :=
  mkDocument (id d) (application_id d) (file_name d) (file_type d) (mime_type d)
    (file_size d) (storage_path d) (document_type d) (processing_status d) (metadata d)
    v (ocr_result d) (created_at d) (updated_at d)
    (created_by d) (updated_by d).

Definition set_ocr_result (v : Dict) (d : Document) : Document :=
  mkDocument (id d) (application_id d) (file_name d) (file_type d) (mime_type d)
    (file_size d) (storage_path d) (document_type d) (processing_status d) (metadata d)
    (classification_result d) v (created_at d) (updated_at d)
    (created_by d) (updated_by d).

Definition set_updated_at (v : Time) (d : Document) : Document :=
  mkDocument (id d) (application_id d) (file_name d) (file_type d) (mime_type d)
    (file_size d) (storage_path d) (document_type d) (processing_status d) (metadata d)
    (classification_result d) (ocr_result d) (created_at d) v
    (created_by d) (updated_by d).

(** A method call: the outcome, and the document as the call leaves it. *)
Definition M (A : Type) : Type := Document -> Res A * Document.

Definition ret {A} (a : A) : M A := fun d => (Ok a, d).
Definition raise {A} (e : Exn) : M A := fun d => (Raise e, d).
Definition lift {A} (r : Res A) : M A := fun d => (r, d).
Definition get : M Document := fun d => (Ok d, d).
Definition modify (f : Document -> Document) : M unit := fun d => (Ok tt, f d).

Definition bind {A B} (m : M A) (k : A -> M B) : M B :=
  fun d =>
    match m d with
    | (Ok a, d') => k a d'
    | (Raise e, d') => (Raise e, d')
    end.

Declare Scope method_scope.
Delimit Scope method_scope with M.
Notation "x <- m ;; k" := (bind m (fun x => k))
  (at level 100, m at next level, right associativity) : method_scope.
Notation "m ;;; k" := (bind m (fun _ => k))
  (at level 100, right associativity) : method_scope.

(** [x in l] for a list of strings. *)
Definition str_in (x : string) (l : list string) : bool := bool_decide (x ∈ l).

(** [Document.__init__]: [uuid] is the fresh identifier, [now] the clock. *)
Definition Document_init (uuid : string) (now : Time)
    (application_id file_name file_type mime_type : string) (file_size : Z)
    (created_by : string) : Document :=
  mkDocument uuid application_id file_name file_type mime_type file_size
    None None "PENDING" ∅ None ∅ now now created_by created_by.

(** [Document.upload_to_storage]: [put] is the outcome of the storage
    client's [put_object], [date_path] the rendering
    ["documents/{year}/{month}/{day}/"] of the clock. *)
Definition upload_to_storage (put : Res unit) (date_path : string) (now : Time) : M string :=
  (d <- get ;;
   let filename := String.append (id d) (String.append "-" (file_name d)) in
   let storage_path := String.append date_path filename in
   _ <- lift put ;;
   modify (set_storage_path (Some storage_path)) ;;;
   modify (set_updated_at now) ;;;
   ret storage_path)%M.

(** [Document.update_processing_status] *)
Definition update_processing_status (status : string) (result_data : Dict)
    (now : Time) : M unit :=
  (if negb (str_in status PROCESSING_STATUSES)
   then raise (ValueError (String.append "Invalid processing status: " status))
   else
     modify (set_processing_status status) ;;;
     modify (fun d => set_metadata (result_data ∪ metadata d) d) ;;;
     modify (set_updated_at now))%M.

(** [Document.set_classification] *)
Definition set_classification (document_type : string)
    (classification_metadata : Dict) (now : Time) : M unit :=
  (if negb (str_in document_type DOCUMENT_TYPES)
   then raise (ValueError (String.append "Invalid document type: " document_type))
   else
     modify (set_document_type (Some document_type)) ;;;
     modify (set_classification_result (Some document_type)) ;;;
     modify (fun d => set_metadata
                        (<["classification" := VDict classification_metadata]> (metadata d)) d) ;;;
     modify (set_updated_at now))%M.

Definition required_fields : list string := ["text"; "confidence"; "processing_time"].

(** [field in ocr_data] *)
Definition has_key (d : Dict) (key : string) : bool :=
  match d !! key with
  | Some _ => true
  | None => false
  end.

(** [Document.store_ocr_result]: [stamp] and [now] are the two clock
    readings, in the order the method takes them.  The closing log call
    evaluates [len(ocr_data.get('text', ''))]. *)
Definition store_ocr_result (ocr_data : Dict) (stamp now : Time) : M unit :=
  (if negb (forallb (has_key ocr_data) required_fields)
   then raise (ValueError "OCR data missing required fields")
   else
     modify (set_ocr_result ocr_data) ;;;
     duration <- lift (getitem ocr_data "processing_time") ;;
     confidence <- lift (getitem ocr_data "confidence") ;;
     modify (fun d => set_metadata
                        (<["ocr_processing" :=
                             VDict (<["timestamp" := VIso stamp]>
                                    (<["duration" := duration]>
                                     (<["confidence" := confidence]> ∅)))]>
                           (metadata d)) d) ;;;
     modify (set_updated_at now) ;;;
     _ <- lift (py_len (default (VStr "") (ocr_data !! "text"))) ;;
     ret tt)%M.

(** The calls that change a document: its methods, and the two attribute
    writes the controller makes ([document.file_size = ...],
    [document.metadata[key] = ...]). *)
Inductive Call : Type :=
| CallUpload (put : Res unit) (date_path : string) (now : Time)
| CallUpdateStatus (status : string) (result_data : Dict) (now : Time)
| CallSetClassification (document_type : string) (classification_metadata : Dict) (now : Time)
| CallStoreOcr (ocr_data : Dict) (stamp now : Time)
| CallSetFileSize (n : Z)
| CallSetMetadata (key : string) (v : Value).

(** The document a call leaves behind, whether it returns or raises. *)
Definition run_call (d : Document) (c : Call) : Document :=
  match c with
  | CallUpload put date_path now => snd (upload_to_storage put date_path now d)
  | CallUpdateStatus status result_data now =>
      snd (update_processing_status status result_data now d)
  | CallSetClassification ty meta now => snd (set_classification ty meta now d)
  | CallStoreOcr ocr_data stamp now => snd (store_ocr_result ocr_data stamp now d)
  | CallSetFileSize n => set_file_size n d
  | CallSetMetadata key v => set_metadata (<[key := v]> (metadata d)) d
  end.

Definition run_calls (d : Document) (cs : list Call) : Document :=
  fold_left run_call cs d.


(** ** [services/classification_service.py] *)

Definition CONFIDENCE_THRESHOLD : Q := 0.85.

(** [DocumentClassifier.preprocess_text] *)
Definition preprocess_text (text : string) : string :=
  let text := lower text in
  let text := join " " (split_ws text) in
  let text := replace_char LF " "%char text in
  let text := replace_char TAB " "%char text in
  string_filter (fun char => isalnum char || isspace char) text.

(** [numpy.argmax] over the flattened array: the first position of the
    largest entry. *)
Fixpoint argmax_from (best_i : nat) (best : Q) (i : nat) (l : list Q) : nat :=
  match l with
  | [] => best_i
  | x :: l' =>
      if Qltb best x then argmax_from i x (S i) l'
      else argmax_from best_i best (S i) l'
  end.

Definition np_argmax (a : list (list Q)) : Res nat :=
  match concat a with
  | [] => Raise (ValueError "attempt to get argmax of an empty sequence")
  | x :: l => Ok (argmax_from 0 x 1 l)
  end.

(** [l[i]] for a list and a non-negative index. *)
Definition list_getitem {A} (l : list A) (i : nat) : Res A :=
  match l !! i with
  | Some x => Ok x
  | None => Raise (IndexError "index out of range")
  end.

(** The metadata dictionary [classify_document] passes on. *)
Definition classification_metadata_of (confidence_score : Q) : Dict :=
  <["confidence" := VNum confidence_score]>
  (<["processing_time" := VStr "real-time"]>
   (<["method" := VStr "machine_learning"]>
    (<["model_version" := VStr "1.0"]> ∅))).

(** [s.startswith(p)] *)
Fixpoint startswith (p s : string) : bool :=
  match p, s with
  | EmptyString, _ => true
  | String a p', String b s' => Ascii.eqb a b && startswith p' s'
  | String _ _, EmptyString => false
  end.

Section Classifier.

(** The collaborators of the classifier: the storage download of the
    document's file, the mime type the [magic] library detects in it, the
    text the PDF reader extracts from each page, and the probability rows
    [self.model.predict_proba(self.vectorizer.transform([text]))]. *)
Variable s3_download : Document -> Res unit.
Variable magic_from_file : Document -> string.
Variable pdf_page_texts : Document -> Res (list string).
Variable predict_proba : string -> Res (list (list Q)).

(** [DocumentClassifier.extract_text] *)
Definition extract_text (document : Document) : Res string :=
  (_ <- s3_download document ;;
   let file_type := magic_from_file document in
   if String.eqb file_type "application/pdf" then
     pages <- pdf_page_texts document ;;
     Ok (join " " pages)
   else if startswith "image/" file_type then
     Raise (ValueError "Image-based document extraction not implemented")
   else
     Raise (ValueError (String.append "Unsupported file type: " file_type)))%res.

(** [DocumentClassifier.classify_document] *)
Definition classify_document (now : Time) : M (string * Q) :=
  (document <- get ;;
   text <- lift (extract_text document) ;;
   if is_empty text
   then raise (ValueError (String.append "No text content extracted from document "
                                         (id document)))
   else
     let processed_text := preprocess_text text in
     prediction_probs <- lift (predict_proba processed_text) ;;
     predicted_class_idx <- lift (np_argmax prediction_probs) ;;
     row <- lift (list_getitem prediction_probs 0) ;;
     confidence_score <- lift (list_getitem row predicted_class_idx) ;;
     predicted_type <- lift (list_getitem DOCUMENT_TYPES predicted_class_idx) ;;
     (if Qgeb confidence_score CONFIDENCE_THRESHOLD
      then set_classification predicted_type
             (classification_metadata_of confidence_score) now
      else ret tt) ;;;
     ret (predicted_type, confidence_score))%M.

End Classifier.

(** ** [services/ocr_service.py] *)

(** The names the module binds at its top level: its imports, its logger,
    its two constants, its two functions and its class. *)
Definition module_names : list string :=
  ["os"; "Path"; "tempfile"; "List"; "Tuple"; "Dict";
   "pytesseract"; "Image"; "ImageEnhance"; "np"; "convert_from_bytes";
   "Config"; "get_logger"; "Document";
   "logger"; "SUPPORTED_IMAGE_FORMATS"; "SUPPORTED_PDF_VERSION";
   "preprocess_image"; "convert_pdf_to_images"; "OCRProcessor"].

(** Reading, inside a function of the module, a name that is neither a
    local variable nor a builtin: it is looked up among the names the
    module binds, and [NameError] is raised when it is not there. *)
Definition global_name (name : string) : Res unit :=
  if str_in name module_names then Ok tt else Raise (NameError name).

(** *** The per-page loop of [process_document] *)

Section Recognition.

(** Python's [float(s)] on a column of the engine's report. *)
Variable py_float : string -> Res Q.

(** One line of the report: [Some (text, conf)] when the row is kept. *)
Definition parse_line (line : string) : Res (option (string * Q)) :=
  let parts := split_on TAB line in
  if Nat.ltb 11 (length parts) && negb (is_empty (strip (nth 11 parts EmptyString)))
  then
    (conf <- (if negb (String.eqb (nth 10 parts EmptyString) "-1")
              then py_float (nth 10 parts EmptyString)
              else Ok 0%Q) ;;
     if Qltb 0 conf
     then Ok (Some (nth 11 parts EmptyString, conf))
     else Ok None)%res
  else Ok None.

(** The inner loop, with its two accumulators. *)
Fixpoint page_loop (lines : list string) (page_text : list string)
    (page_confidence : list Q) : Res (list string * list Q) :=
  match lines with
  | [] => Ok (page_text, page_confidence)
  | line :: rest =>
      (r <- parse_line line ;;
       match r with
       | Some (t, conf) => page_loop rest (page_text ++ [t]) (page_confidence ++ [conf])
       | None => page_loop rest page_text page_confidence
       end)%res
  end.

(** The variables of [process_document] that live across pages;
    [avg_confidence] is unbound until a page assigns it. *)
Record LoopState : Type := mkLoopState {
  results : list string;
  confidence_scores : list Q;
  avg_confidence : option Q
}.

(** The body of the outer loop for one page; [report] is
    [ocr_result.splitlines()], header line first. *)
Definition process_page (st : LoopState) (report : list string) : Res LoopState :=
  (r <- page_loop (tl report) [] [] ;;
   let '(page_text, page_confidence) := r in
   let st' :=
     match page_confidence with
     | [] => st
     | _ :: _ =>
         let avg := mean page_confidence in
         mkLoopState (results st ++ [join (String LF EmptyString) page_text])
                     (confidence_scores st ++ [avg]) (Some avg)
     end in
   match avg_confidence st' with
   | Some _ => Ok st'
   | None => Raise (UnboundLocalError "avg_confidence")
   end)%res.

Fixpoint process_pages (st : LoopState) (reports : list (list string)) : Res LoopState :=
  match reports with
  | [] => Ok st
  | report :: rest => (st' <- process_page st report ;; process_pages st' rest)%res
  end.

End Recognition.

(** A reading of [float(s)] for the plain decimal literals the engine
    prints in its confidence column: an optional sign, digits, and an
    optional fraction.  It instantiates [py_float] in the worked inputs
    only; the other spellings Python accepts (exponents, [inf], [nan],
    digit separators) are outside it. *)
Fixpoint digits_value (acc : Z) (s : string) : option Z :=
  match s with
  | EmptyString => Some acc
  | String c s' =>
      if isdigit c
      then digits_value (10 * acc + Z.of_nat (code c - 48))%Z s'
      else None
  end.

Definition unsigned_decimal (s : string) : option Q :=
  match split_on "."%char s with
  | [int_part] =>
      if is_empty int_part then None
      else option_map inject_Z (digits_value 0 int_part)
  | [int_part; frac_part] =>
      if is_empty int_part && is_empty frac_part then None
      else
        match digits_value 0 int_part, digits_value 0 frac_part with
        | Some n, Some f =>
            let scale := (10 ^ Z.of_nat (String.length frac_part))%Z in
            Some (inject_Z (n * scale + f) / inject_Z scale)%Q
        | _, _ => None
        end
  | _ => None
  end.

Definition decimal_float (s : string) : Res Q :=
  let bad := Raise (ValueError "could not convert string to float") in
  match strip s with
  | String "-"%char rest =>
      match unsigned_decimal rest with Some q => Ok (- q)%Q | None => bad end
  | String "+"%char rest =>
      match unsigned_decimal rest with Some q => Ok q | None => bad end
  | t =>
      match unsigned_decimal t with Some q => Ok q | None => bad end
  end.

(** *** [OCRProcessor.validate_results] *)

Record Thresholds : Type := mkThresholds {
  min_confidence : Q;
  max_processing_time : Q;
  min_text_length : nat;
  max_error_rate : Q
}.

Definition thresholds : Thresholds :=
  {| min_confidence := 99.0;
     max_processing_time := 300;
     min_text_length := 50;
     max_error_rate := 0.01 |}.

Definition validate_results (ocr_results : Dict) : Res (bool * Dict) :=
  (confidence <- getitem ocr_results "confidence" ;;
   processing_time <- getitem ocr_results "processing_time" ;;
   text <- getitem ocr_results "text" ;;
   text_length <- py_len text ;;
   c <- as_num confidence ;;
   let error_rate := (100 - c)%Q in
   let metrics : Dict :=
     <["confidence" := confidence]>
     (<["processing_time" := processing_time]>
      (<["text_length" := VNum (inject_Z (Z.of_nat text_length))]>
       (<["error_rate" := VNum error_rate]> ∅))) in
   validation_status <-
     (if Qgeb c (min_confidence thresholds)
      then
        t <- as_num processing_time ;;
        Ok (Qleb t (max_processing_time thresholds)
            && Nat.leb (min_text_length thresholds) text_length
            && Qleb error_rate (max_error_rate thresholds))
      else Ok false) ;;
   Ok (validation_status, metrics))%res.

(** *** [OCRProcessor._calculate_field_confidence] *)

(** The function on exact rationals; [Binary64._calculate_field_confidence]
    below is the same function on floats. *)
Definition _calculate_field_confidence (value : string) (base_confidence : Q) : Q :=
  let confidence := base_confidence in
  let confidence :=
    if Nat.ltb (String.length value) 3 then (confidence * 0.9)%Q else confidence in
  let confidence :=
    if string_any isdigit value then (confidence * 0.95)%Q else confidence in
  let confidence :=
    if string_any (fun c => negb (isalnum c)) value then (confidence * 0.98)%Q
    else confidence in
  round2 confidence.

(** *** Regular expressions of the field patterns

    The patterns use literals, the classes [\d] and [\s], bracketed sets,
    the greedy quantifiers [?], [*], [+] and [{n}] on a single character
    class, and one capture group.  Matching backtracks as [re] does, and
    literals compare without case ([re.IGNORECASE]). *)

Inductive Member : Type :=
| MChar (c : ascii)
| MDigit
| MSpace.

Record Atom : Type := mkAtom {
  negated : bool;
  members : list Member
}.

Inductive Node : Type :=
| Rep (a : Atom) (lo : nat) (hi : option nat)
| GroupOpen
| GroupClose.

Definition member_matches (m : Member) (c : ascii) : bool :=
  match m with
  | MChar x => Ascii.eqb (lower_char x) (lower_char c)
  | MDigit => isdigit c
  | MSpace => isspace c
  end.

Definition atom_matches (a : Atom) (c : ascii) : bool :=
  xorb (negated a) (existsb (fun m => member_matches m c) (members a)).

Definition can_take (hi : option nat) : bool :=
  match hi with
  | Some O => false
  | _ => true
  end.

(** [a{lo,hi}] followed by the rest of the pattern [k]: as many characters
    as possible first, then fewer. *)
Fixpoint greedy {R} (a : Atom) (lo : nat) (hi : option nat)
    (k : string -> option R) (s : string) : option R :=
  let stop := match lo with O => k s | S _ => None end in
  match s with
  | String c s' =>
      if atom_matches a c && can_take hi then
        match greedy a (Nat.pred lo) (option_map Nat.pred hi) k s' with
        | Some r => Some r
        | None => stop
        end
      else stop
  | EmptyString => stop
  end.

(** The text between the place where the group opened and [s]. *)
Definition captured (opened : option string) (s : string) : option string :=
  match opened with
  | Some s0 => Some (substring 0 (String.length s0 - String.length s) s0)
  | None => None
  end.

(** A match of the pattern at the start of [s]: the text of group 1. *)
Fixpoint match_here (p : list Node) (opened group1 : option string) (s : string)
    : option (option string) :=
  match p with
  | [] => Some group1
  | Rep a lo hi :: p' => greedy a lo hi (match_here p' opened group1) s
  | GroupOpen :: p' => match_here p' (Some s) group1 s
  | GroupClose :: p' => match_here p' opened (captured opened s) s
  end.

(** [re.search(p, s, re.IGNORECASE)] followed by [.group(1)]: the leftmost
    match. *)
Fixpoint re_search (p : list Node) (s : string) : option string :=
  match match_here p None None s with
  | Some (Some g) => Some g
  | Some None => None
  | None =>
      match s with
      | String _ s' => re_search p s'
      | EmptyString => None
      end
  end.

Definition chr (c : ascii) : Atom := mkAtom false [MChar c].
Definition digit : Atom := mkAtom false [MDigit].
Definition space : Atom := mkAtom false [MSpace].
Definition one (a : Atom) : Node := Rep a 1 (Some 1).
Definition opt (a : Atom) : Node := Rep a 0 (Some 1).
Definition star (a : Atom) : Node := Rep a 0 None.
Definition plus (a : Atom) : Node := Rep a 1 None.
Definition times (n : nat) (a : Atom) : Node := Rep a n (Some n).
Definition lit (s : string) : list Node :=
  map (fun c => one (chr c)) (list_ascii_of_string s).

(** *** [OCRProcessor.extract_fields] *)

Definition not_newline : Atom := mkAtom true [MChar LF].
Definition not_space : Atom := mkAtom true [MSpace].

(** The pattern table, in the order of the source:
<<
  ISO_APPLICATION
    business_name   Business\s+Name:?\s*([^\n]+)
    ein             EIN:?\s*(\d{2}-?\d{7})
    address         Address:?\s*([^\n]+)
    phone           Phone:?\s*([\d-]+)
    email           Email:?\s*([^\s]+@[^\s]+)
  BANK_STATEMENT
    account_number  Account\s*#:?\s*(\d+)
    balance         Balance:?\s*\$?([\d,]+\.\d{2})
    period          Statement\s+Period:?\s*([^\n]+)
>> *)
Definition field_patterns : list (string * list (string * list Node)) :=
  [ ("ISO_APPLICATION",
     [ ("business_name",
        lit "Business" ++ [plus space] ++ lit "Name" ++ [opt (chr ":"); star space]
        ++ [GroupOpen; plus not_newline; GroupClose]);
       ("ein",
        lit "EIN" ++ [opt (chr ":"); star space]
        ++ [GroupOpen; times 2 digit; opt (chr "-"); times 7 digit; GroupClose]);
       ("address",
        lit "Address" ++ [opt (chr ":"); star space]
        ++ [GroupOpen; plus not_newline; GroupClose]);
       ("phone",
        lit "Phone" ++ [opt (chr ":"); star space]
        ++ [GroupOpen; plus (mkAtom false [MDigit; MChar "-"]); GroupClose]);
       ("email",
        lit "Email" ++ [opt (chr ":"); star space]
        ++ [GroupOpen; plus not_space; one (chr "@"); plus not_space; GroupClose]) ]);
    ("BANK_STATEMENT",
     [ ("account_number",
        lit "Account" ++ [star space; one (chr "#"); opt (chr ":"); star space]
        ++ [GroupOpen; plus digit; GroupClose]);
       ("balance",
        lit "Balance" ++ [opt (chr ":"); star space; opt (chr "$")]
        ++ [GroupOpen; plus (mkAtom false [MDigit; MChar ","]); one (chr ".");
            times 2 digit; GroupClose]);
       ("period",
        lit "Statement" ++ [plus space] ++ lit "Period" ++ [opt (chr ":"); star space]
        ++ [GroupOpen; plus not_newline; GroupClose]) ]) ].

(** [d[key]] on the pattern table. *)
Fixpoint assoc {A} (key : string) (l : list (string * A)) : option A :=
  match l with
  | [] => None
  | (k, v) :: l' => if String.eqb key k then Some v else assoc key l'
  end.

(** A value passed where the callee needs a [str]. *)
Definition as_str (v : Value) : Res string :=
  match v with
  | VStr s => Ok s
  | _ => Raise (TypeError "expected string or bytes-like object")
  end.

(** The entry stored for one field. *)
Definition field_entry (value : string) (field_confidence : Q) : Value :=
  VDict (<["value" := VStr value]> (<["confidence" := VNum field_confidence]> ∅)).

(** The loop over the fields of one document type. *)
Fixpoint extract_loop (patterns : list (string * list Node)) (text : Value)
    (ocr_results : Dict) (extracted_fields : Dict) : Res Dict :=
  match patterns with
  | [] => Ok extracted_fields
  | (field, pattern) :: rest =>
      (s <- as_str text ;;
       match re_search pattern s with
       | Some g =>
           let value := strip g in
           base <- getitem ocr_results "confidence" ;;
           base_confidence <- as_num base ;;
           let field_confidence := _calculate_field_confidence value base_confidence in
           extract_loop rest text ocr_results
             (<[field := field_entry value field_confidence]> extracted_fields)
       | None => extract_loop rest text ocr_results extracted_fields
       end)%res
  end.

Definition extract_fields (document_type : string) (ocr_results : Dict) : Res Dict :=
  (text <- getitem ocr_results "text" ;;
   match assoc document_type field_patterns with
   | None => Raise (ValueError (String.append "Unsupported document type: " document_type))
   | Some patterns => extract_loop patterns text ocr_results ∅
   end)%res.

(** *** [OCRProcessor.process_document] *)

(** [Config.ocr_config], with its four entries. *)
Record OcrSettings : Type := mkOcrSettings {
  language : Value;
  dpi : Value;
  psm : Value;
  oem : Value
}.

Section ProcessDocument.

Variable py_float : string -> Res Q.
Variable ocr_settings : OcrSettings.

(** The result dictionary compiled after the loop. *)
Definition compile_results (st : LoopState) (processing_time : Q) (pages : nat) : Dict :=
  let overall_confidence :=
    match confidence_scores st with
    | [] => 0%Q
    | _ :: _ => mean (confidence_scores st)
    end in
  <["text" := VStr (join (String LF (String LF EmptyString)) (results st))]>
  (<["confidence" := VNum overall_confidence]>
   (<["processing_time" := VNum processing_time]>
    (<["pages_processed" := VNum (inject_Z (Z.of_nat pages))]>
     (<["metadata" :=
          VDict (<["dpi" := dpi ocr_settings]>
                 (<["language" := language ocr_settings]>
                  (<["psm" := psm ocr_settings]>
                   (<["oem" := oem ocr_settings]> ∅))))]> ∅)))).

(** The closing lines of [process_document]: the compiled result is
    validated, which only logs a warning, stored on the document and
    returned.
<<
  validation_status, metrics = self.validate_results(ocr_results)
  if not validation_status:
      logger.warning(...)
  document.store_ocr_result(ocr_results)
  ...
  return ocr_results
>> *)
Definition validate_and_store (ocr_results : Dict) (stamp now : Time) : M Dict :=
  (_ <- lift (validate_results ocr_results) ;;
   store_ocr_result ocr_results stamp now ;;;
   ret ocr_results)%M.

(** The function opens with [start_time = time.time()], which reads the
    global name [time].  [reports] holds, for each page image in order,
    the lines of the engine's report on the preprocessed image;
    [processing_time] is the elapsed time read after the loop; [stamp] and
    [now] are the clock readings of [store_ocr_result].  The handler
    around the body logs the exception and raises it again. *)
Definition process_document (reports : list (list string)) (processing_time : Q)
    (stamp now : Time) : M Dict :=
  (lift (global_name "time") ;;;
   st <- lift (process_pages py_float (mkLoopState [] [] None) reports) ;;
   let ocr_results := compile_results st processing_time (length reports) in
   validate_and_store ocr_results stamp now)%M.

End ProcessDocument.

(** ** The design document's reading of three formulas

    These definitions follow the wording of the design document, to be
    compared with the functions above. *)

(** Validation as documented: the error rate [100 - confidence] is held
    against [1.0]. *)
Definition documented_validation (confidence processing_time : Q) (text : string) : bool :=
  Qgeb confidence 99.0 && Qleb processing_time 300
  && Nat.leb 50 (String.length text) && Qleb (100 - confidence) 1.0.

(** Field confidence as documented: the third penalty applies to a
    character that is neither alphanumeric nor a space. *)
Definition documented_field_confidence (value : string) (base_confidence : Q) : Q :=
  let confidence := base_confidence in
  let confidence :=
    if Nat.ltb (String.length value) 3 then (confidence * 0.9)%Q else confidence in
  let confidence :=
    if string_any isdigit value then (confidence * 0.95)%Q else confidence in
  let confidence :=
    if string_any (fun c => negb (isalnum c) && negb (Ascii.eqb c " ")) value
    then (confidence * 0.98)%Q else confidence in
  round2 confidence.

(** Page and document confidence as documented: every page counts, a page
    without a surviving token with confidence 0. *)
Definition documented_page_confidence (page_confidence : list Q) : Q :=
  match page_confidence with
  | [] => 0%Q
  | _ :: _ => mean page_confidence
  end.

Definition documented_confidence (pages : list (list Q)) : Q :=
  mean (map documented_page_confidence pages).

(** Page text as documented: the surviving tokens joined by single spaces. *)
Definition documented_page_text (page_text : list string) : string :=
  join " " page_text.

(** The page result as documented: every page has one, with its text and
    its confidence. *)
Definition documented_page_result (kept : list (string * Q)) : string * Q :=
  (documented_page_text (map fst kept), documented_page_confidence (map snd kept)).

(** ** Field confidence on binary64 numbers

    [_calculate_field_confidence] multiplies floats and rounds the product
    to two decimals, so its result at a decimal tie depends on the rounding
    of each product: for the value "12" at base 99 the float product is
    just above 84.645 and rounds to 84.65, where the exact product is
    84.645 and rounds to 84.64.  This module gives the function on
    binary64 numbers, with the operations of IEEE 754 as specified in
    [SpecFloat]. *)

Module Binary64.

(** A binary64 number: a signed zero, an infinity, NaN, or a sign with a
    mantissa [m] and an exponent [e], of value [m * 2 ^ e]. *)
Definition float64 : Type := SpecFloat.spec_float.

(** [x * y]: the exact product, rounded to nearest, ties to even. *)
Definition mul : float64 -> float64 -> float64 := SpecFloat.SFmul 53 1024.

(** The binary64 number nearest to [n / d], for [d > 0]: what the decimal
    literal of [n / d] denotes. *)
Definition nearest (n d : Z) : float64 :=
  match n with
  | Z0 => SpecFloat.S754_zero false
  | Zpos p =>
      SpecFloat.SFdiv 53 1024 (SpecFloat.S754_finite false p 0)
        (SpecFloat.S754_finite false (Z.to_pos d) 0)
  | Zneg p =>
      SpecFloat.SFdiv 53 1024 (SpecFloat.S754_finite true p 0)
        (SpecFloat.S754_finite false (Z.to_pos d) 0)
  end.

(** The absolute value of a finite number, as a rational. *)
Definition magnitude (m : positive) (e : Z) : Q :=
  match e with
  | Z0 => inject_Z (Zpos m)
  | Zpos p => inject_Z (Zpos m * 2 ^ Zpos p)
  | Zneg p => Zpos m # (2 ^ p)
  end.

(** [round(x, 2)] on a float: the exact value of [x] is rounded to a whole
    number of hundredths, ties to even, and the result is the float
    nearest to that decimal; zeros, infinities and NaN round to
    themselves, and the sign is kept. *)
Definition round2 (x : float64) : float64 :=
  match x with
  | SpecFloat.S754_finite s m e =>
      match round_half_even (magnitude m e * 100) with
      | Zpos hundredths =>
          SpecFloat.SFdiv 53 1024 (SpecFloat.S754_finite s hundredths 0)
            (SpecFloat.S754_finite false 100 0)
      | _ => SpecFloat.S754_zero s
      end
  | _ => x
  end.

(** [OCRProcessor._calculate_field_confidence] *)
Definition _calculate_field_confidence (value : string) (base_confidence : float64)
    : float64 :=
  let confidence := base_confidence in
  let confidence :=
    if Nat.ltb (String.length value) 3 then mul confidence (nearest 9 10)
    else confidence in
  let confidence :=
    if string_any isdigit value then mul confidence (nearest 95 100) else confidence in
  let confidence :=
    if string_any (fun c => negb (isalnum c)) value then mul confidence (nearest 98 100)
    else confidence in
  round2 confidence.

(** Field confidence as documented: the third penalty applies to a
    character that is neither alphanumeric nor a space. *)
Definition documented_field_confidence (value : string) (base_confidence : float64)
    : float64 :=
  let confidence := base_confidence in
  let confidence :=
    if Nat.ltb (String.length value) 3 then mul confidence (nearest 9 10)
    else confidence in
  let confidence :=
    if string_any isdigit value then mul confidence (nearest 95 100) else confidence in
  let confidence :=
    if string_any (fun c => negb (isalnum c) && negb (Ascii.eqb c " ")) value
    then mul confidence (nearest 98 100) else confidence in
  round2 confidence.

(** A factor that is applied only under a condition. *)
Definition scaled (applies : bool) (factor x : float64) : float64 :=
  if applies then mul x factor else x.

End Binary64.

(** ** Auxiliary notions used in the statements *)

(** A multiplier that applies only under a condition. *)
Definition penalty (applies : bool) (factor : Q) : Q := if applies then factor else 1%Q.

(** The characters of a string, in order. *)
Definition chars (s : string) : list ascii := list_ascii_of_string s.

(** The sample inputs of the examples: a fresh document, the default OCR
    settings, and report lines with the twelve columns of the engine. *)
Definition sample_document : Document :=
  Document_init "doc-1" 1000%Z "app-1" "scan.pdf" "pdf" "application/pdf" 2048%Z "user-1".

Definition default_settings : OcrSettings :=
  {| language := VStr "eng"; dpi := VNum 300; psm := VNum 3; oem := VNum 3 |}.

Definition header_line : string :=
  join (String TAB EmptyString)
    ["level"; "page_num"; "block_num"; "par_num"; "line_num"; "word_num";
     "left"; "top"; "width"; "height"; "conf"; "text"].

Definition word_line (conf text : string) : string :=
  join (String TAB EmptyString)
    ["5"; "1"; "1"; "1"; "1"; "1"; "36"; "92"; "60"; "17"; conf; text].

Definition fifty_chars : string := "The quick brown fox jumps over the lazy dog again.".

(** A page report with two confident words and three rows the loop drops:
    a row with the marker [-1], a row with a blank text and a row with
    confidence 0. *)
Definition sample_report : list string :=
  [header_line; word_line "96" "Sample"; word_line "-1" "x"; word_line "95" " ";
   word_line "0" "smudge"; word_line "92" "Business"].

(** A report without any row: a page on which the engine found nothing. *)
Definition blank_report : list string := [header_line].

(** Three pages, the second of them blank. *)
Definition sample_pages : list (list string) :=
  [sample_report; blank_report; [header_line; word_line "90" "Hello"]].

(** Every entry of the output was built from a matched value and the
    result's confidence. *)
Definition built_from (base : Q) (v : Value) : Prop :=
  exists value, v = field_entry value (_calculate_field_confidence value base).


(** The document after the threshold test: committed at or above the threshold,
    untouched below it. *)
Definition after_threshold (now : Time) (d : Document) (label : string) (conf : Q) : Document :=
  if Qgeb conf CONFIDENCE_THRESHOLD
  then set_updated_at now
         (set_metadata
            (<["classification" := VDict (classification_metadata_of conf)]> (metadata d))
            (set_classification_result (Some label) (set_document_type (Some label) d)))
  else d.

(** A classifier whose model puts probability 0.75 on the second label. *)
Definition sample_probs : list (list Q) := [[0; 0.75; 0; 0; 0]]%Q.

Definition sample_classify : Time -> M (string * Q) :=
  classify_document (fun _ => Ok tt) (fun _ => "application/pdf")
    (fun _ => Ok ["Test document content"]) (fun _ => Ok sample_probs).

(** *** Surviving rows of a page report *)

Section Survivors.

Variable py_float : string -> Res Q.

Definition columns (line : string) : list string := split_on TAB line.

(** The row has a twelfth column, and its text is not blank. *)
Definition has_text (line : string) : Prop :=
  (11 < length (columns line))%nat /\
  strip (nth 11 (columns line) EmptyString) <> EmptyString.

(** The confidence the row carries: 0 for the marker [-1], the number in
    the eleventh column otherwise. *)
Definition row_conf (line : string) (c : Q) : Prop :=
  let cell := nth 10 (columns line) EmptyString in
  (cell = "-1" /\ c = 0%Q) \/ (cell <> "-1" /\ py_float cell = Ok c).

(** [survivors lines kept]: [kept] lists, in order, the text and the
    confidence of exactly the rows with a non-blank text and a confidence
    above 0. *)
Inductive survivors : list string -> list (string * Q) -> Prop :=
| survivors_nil : survivors [] []
| survivors_keep line rest c kept :
    has_text line -> row_conf line c -> (0 < c)%Q ->
    survivors rest kept ->
    survivors (line :: rest) ((nth 11 (columns line) EmptyString, c) :: kept)
| survivors_blank line rest kept :
    ~ has_text line ->
    survivors rest kept ->
    survivors (line :: rest) kept
| survivors_unsure line rest c kept :
    has_text line -> row_conf line c -> (c <= 0)%Q ->
    survivors rest kept ->
    survivors (line :: rest) kept.

End Survivors.

(** The confidences of the pages that kept a token, and the document
    confidence computed from them. *)
Definition page_confidences (pages : list (list Q)) : list Q :=
  map mean (filter (fun page => page <> []) pages).

Definition overall_confidence (pages : list (list Q)) : Q :=
  match page_confidences pages with
  | [] => 0%Q
  | _ :: _ => mean (page_confidences pages)
  end.



(** ** [utils/logger.py] and [config/settings.py] *)

(** [s.upper()] on ASCII. *)
Definition upper_char (c : ascii) : ascii :=
  if islower c then ascii_of_nat (code c - 32) else c.

Definition upper (s : string) : string := string_map upper_char s.

Definition DEFAULT_LOG_LEVEL : string := "INFO".

(** The numeric levels of the [logging] module. *)
Definition LOG_LEVELS : list (string * Z) :=
  [("DEBUG", 10%Z); ("INFO", 20%Z); ("WARNING", 30%Z); ("ERROR", 40%Z);
   ("CRITICAL", 50%Z)].

(** The level [get_logger] sets: [log_level] is the optional argument,
    [env_log_level] the value of the environment variable [LOG_LEVEL] if it
    is set.
<<
  level = log_level or os.getenv('LOG_LEVEL', DEFAULT_LOG_LEVEL)
  logger.setLevel(LOG_LEVELS.get(level.upper(), LOG_LEVELS[DEFAULT_LOG_LEVEL]))
>> *)
Definition get_logger_level (log_level env_log_level : option string) : Z :=
  let from_env := default DEFAULT_LOG_LEVEL env_log_level in
  let level :=
    match log_level with
    | Some l => if is_empty l then from_env else l
    | None => from_env
    end in
  default (default 0%Z (assoc DEFAULT_LOG_LEVEL LOG_LEVELS))
          (assoc (upper level) LOG_LEVELS).

Definition required_vars : list string :=
  ["AWS_REGION"; "AWS_ACCESS_KEY_ID"; "AWS_SECRET_ACCESS_KEY";
   "S3_BUCKET"; "KMS_KEY_ID"; "API_BASE_URL"].

(** [not os.getenv(var)]: the variable is unset, or set to the empty
    string. *)
Definition env_unset (environ : gmap string string) (var : string) : bool :=
  match environ !! var with
  | Some value => is_empty value
  | None => true
  end.

(** The closing check of [load_environment_variables]; [environ] is the
    process environment after the [.env] files have been loaded. *)
Definition load_environment_variables (environ : gmap string string) : Res unit :=
  let missing_vars := List.filter (env_unset environ) required_vars in
  match missing_vars with
  | [] => Ok tt
  | _ :: _ =>
      Raise (ValueError (String.append "Missing required environment variables: "
                                       (join ", " missing_vars)))
  end.

(** ** Further notions used in the statements *)

(** The clock reading a call writes to [updated_at] when it succeeds. *)
Definition clock_of (c : Call) : option Time :=
  match c with
  | CallUpload _ _ now => Some now
  | CallUpdateStatus _ _ now => Some now
  | CallSetClassification _ _ now => Some now
  | CallStoreOcr _ _ now => Some now
  | CallSetFileSize _ => None
  | CallSetMetadata _ _ => None
  end.

(** The clock readings of a run never go back, starting from [t]. *)
Fixpoint clock_monotone (t : Time) (cs : list Call) : Prop :=
  match cs with
  | [] => True
  | c :: cs' =>
      match clock_of c with
      | Some now => (t <= now)%Z /\ clock_monotone now cs'
      | None => clock_monotone t cs'
      end
  end.

(** Every character of the string satisfies the test. *)
Fixpoint string_all (p : ascii -> bool) (s : string) : bool :=
  match s with
  | EmptyString => true
  | String c s' => p c && string_all p s'
  end.

(** [g] occurs in [s] as a substring. *)
Definition substring_of (g s : string) : Prop :=
  exists before after, s = String.append before (String.append g after).

(** The upper bound of a quantifier allows [n] repetitions. *)
Definition within (hi : option nat) (n : nat) : Prop :=
  match hi with
  | Some h => (n <= h)%nat
  | None => True
  end.

(** A text matched by a sequence of quantified character classes: it
    splits into one run per class, each run within the bounds of its
    quantifier and made of characters of the class. *)
Inductive reps_match : list Node -> string -> Prop :=
| reps_match_nil : reps_match [] EmptyString
| reps_match_cons a lo hi p run rest :
    string_all (atom_matches a) run = true ->
    (lo <= String.length run)%nat ->
    within hi (String.length run) ->
    reps_match p rest ->
    reps_match (Rep a lo hi :: p) (String.append run rest).

(** The group of the [ein] pattern. *)
Definition ein_group : list Node := [times 2 digit; opt (chr "-"); times 7 digit].

(** The fields of the two supported document types. *)
Definition schema_of (document_type : string) : list string :=
  match assoc document_type field_patterns with
  | Some patterns => map fst patterns
  | None => []
  end.


(** The attributes that identify a document. *)
Definition identity (d : Document) : string * string * string * string * string * Time * string * string :=
  (id d, application_id d, file_name d, file_type d, mime_type d, created_at d,
   created_by d, updated_by d).

(** The entry [store_ocr_result] writes under [ocr_processing]. *)
Definition ocr_processing_entry (stamp : Time) (duration confidence : Value) : Value :=
  VDict (<["timestamp" := VIso stamp]>
         (<["duration" := duration]>
          (<["confidence" := confidence]> ∅))).


(** The string is empty or starts with a character that is no space. *)
Definition head_solid (s : string) : Prop :=
  match s with
  | EmptyString => True
  | String c _ => isspace c = false
  end.

(** * Properties *)

(** ** Outcomes *)

Lemma res_bind_ok {A B} (r : Res A) (k : A -> Res B) (b : B) :
  res_bind r k = Ok b -> exists a, r = Ok a /\ k a = Ok b.
Proof. destruct r as [a|e]; simpl; intros H; [eauto | discriminate]. Qed.

Lemma bind_ok {A B} (m : M A) (k : A -> M B) (d d' : Document) (b : B) :
  bind m k d = (Ok b, d') ->
  exists a d1, m d = (Ok a, d1) /\ k a d1 = (Ok b, d').
Proof.
  unfold bind. destruct (m d) as [[a|e] d1]; intros H; [eauto | discriminate].
Qed.

Lemma lift_ok {A} (r : Res A) (d d' : Document) (a : A) :
  lift r d = (Ok a, d') -> r = Ok a /\ d' = d.
Proof. unfold lift. intros H. inversion H. auto. Qed.

Lemma is_empty_false (s : string) : is_empty s = false <-> s <> EmptyString.
Proof. destruct s; simpl; split; congruence. Qed.

Lemma list_getitem_ok {A} (l : list A) (i : nat) (x : A) :
  list_getitem l i = Ok x <-> l !! i = Some x.
Proof.
  unfold list_getitem. destruct (l !! i); split; intros H; congruence.
Qed.

Lemma get_ok (d d' doc : Document) : get d = (Ok doc, d') -> doc = d /\ d' = d.
Proof. unfold get. intros H. inversion H. auto. Qed.

Lemma ret_ok {A} (a b : A) (d d' : Document) : ret a d = (Ok b, d') -> b = a /\ d' = d.
Proof. unfold ret. intros H. inversion H. auto. Qed.

(** ** Rounding *)

Section Rounding.
Local Open Scope Q_scope.

Lemma Qleb_true a b : Qleb a b = true <-> a <= b.
Proof. unfold Qleb. apply Qle_bool_iff. Qed.

Lemma Qgeb_true a b : Qgeb a b = true <-> b <= a.
Proof. unfold Qgeb. apply Qle_bool_iff. Qed.

Lemma Qgeb_false a b : Qgeb a b = false <-> a < b.
Proof.
  unfold Qgeb. split; intros H.
  - apply Qnot_le_lt. intros Hle. apply Qle_bool_iff in Hle. congruence.
  - destruct (Qle_bool b a) eqn:E; [|reflexivity].
    apply Qle_bool_iff in E. exfalso. apply (Qlt_not_le _ _ H E).
Qed.

Lemma Qltb_true a b : Qltb a b = true <-> a < b.
Proof.
  unfold Qltb. rewrite negb_true_iff. apply (Qgeb_false a b).
Qed.

Lemma Qltb_false a b : Qltb a b = false <-> b <= a.
Proof.
  unfold Qltb. rewrite negb_false_iff. apply Qle_bool_iff.
Qed.

Lemma round_half_even_comp x y : x == y -> round_half_even x = round_half_even y.
Proof.
  intros H. unfold round_half_even.
  rewrite (Qfloor_comp x y H).
  assert (Hc : (x - inject_Z (Qfloor y) ?= 1 # 2) = (y - inject_Z (Qfloor y) ?= 1 # 2)).
  { apply Qcompare_comp; [rewrite H|]; reflexivity. }
  rewrite Hc. reflexivity.
Qed.

Lemma round_half_even_bounds x :
  (Qfloor x <= round_half_even x <= Qfloor x + 1)%Z.
Proof.
  unfold round_half_even.
  destruct (x - inject_Z (Qfloor x) ?= 1 # 2); [destruct (Z.even (Qfloor x))| |]; lia.
Qed.

Lemma round_half_even_mono x y :
  x <= y -> (round_half_even x <= round_half_even y)%Z.
Proof.
  intros Hxy.
  pose proof (Qfloor_resp_le x y Hxy) as Hf.
  destruct (Z.eq_dec (Qfloor x) (Qfloor y)) as [E|N].
  - unfold round_half_even. rewrite E.
    destruct (Qcompare_spec (x - inject_Z (Qfloor y)) (1 # 2)) as [Hx|Hx|Hx];
      destruct (Qcompare_spec (y - inject_Z (Qfloor y)) (1 # 2)) as [Hy|Hy|Hy];
      try (destruct (Z.even (Qfloor y))); try lia; exfalso; lra.
  - pose proof (round_half_even_bounds x). pose proof (round_half_even_bounds y). lia.
Qed.

Lemma round2_comp x y : x == y -> round2 x == round2 y.
Proof.
  intros H. unfold round2.
  rewrite (round_half_even_comp (x * 100) (y * 100)); [reflexivity|].
  rewrite H. reflexivity.
Qed.

Lemma round2_mono x y : x <= y -> round2 x <= round2 y.
Proof.
  intros H. unfold round2.
  assert (Hz : (round_half_even (x * 100) <= round_half_even (y * 100))%Z).
  { apply round_half_even_mono. lra. }
  apply Qmult_le_compat_r; [|discriminate].
  rewrite <- Zle_Qle. exact Hz.
Qed.

(** A rounded value is at most half a hundredth away from its argument. *)
Lemma round2_near x : x - (1 # 200) <= round2 x <= x + (1 # 200).
Proof.
  unfold round2, round_half_even.
  pose proof (Qfloor_le (x * 100)) as Hlo.
  pose proof (Qlt_floor (x * 100)) as Hhi.
  rewrite inject_Z_plus in Hhi.
  set (f := Qfloor (x * 100)) in *.
  destruct (Qcompare_spec (x * 100 - inject_Z f) (1 # 2)) as [He|Hl|Hg];
    [destruct (Z.even f)| |]; rewrite ?inject_Z_plus;
    change (inject_Z 1) with 1 in *; split;
    try (apply Qle_shift_div_l; [reflexivity|]);
    try (apply Qle_shift_div_r; [reflexivity|]); lra.
Qed.

End Rounding.

(** ** [validate_results] *)

Section Validation.
Local Open Scope Q_scope.

(** What the validator computes on a well-typed result dictionary: with
    the thresholds of the source, the error-rate test is
    [100 - confidence <= 0.01]. *)
Lemma validate_results_status (ocr_results : Dict) (c t : Q) (s : string) :
  ocr_results !! "confidence" = Some (VNum c) ->
  ocr_results !! "processing_time" = Some (VNum t) ->
  ocr_results !! "text" = Some (VStr s) ->
  exists (status : bool) (metrics : Dict),
    validate_results ocr_results = Ok (status, metrics) /\
    (status = true <->
     99 <= c /\ t <= 300 /\ (50 <= String.length s)%nat /\ 100 - c <= 1 # 100).
Proof.
  intros Hc Ht Hs. unfold validate_results, getitem.
  rewrite Hc, Ht, Hs. cbn [res_bind py_len as_num].
  destruct (Qgeb c (min_confidence thresholds)) eqn:E1; cbn [res_bind].
  - eexists _, _. split; [reflexivity|].
    apply Qgeb_true in E1.
    rewrite !andb_true_iff, !Qleb_true, Nat.leb_le.
    unfold thresholds in *; cbn [min_confidence max_processing_time
      min_text_length max_error_rate] in *.
    split; [intros [[H1 H2] H3] | intros (H1 & H2 & H3 & H4)]; repeat split;
      try assumption; try lra.
  - eexists _, _. split; [reflexivity|].
    apply Qgeb_false in E1. unfold thresholds in E1; cbn [min_confidence] in E1.
    split; [discriminate|]. intros (H1 & _). exfalso. lra.
Qed.

(** The error-rate threshold makes the validator stricter than the
    confidence threshold: nothing below 99.99 passes. *)
Lemma validate_results_needs_99_99 (ocr_results : Dict) (metrics : Dict) :
  validate_results ocr_results = Ok (true, metrics) ->
  exists c, ocr_results !! "confidence" = Some (VNum c) /\ 9999 # 100 <= c.
Proof.
  unfold validate_results, getitem. intros H.
  destruct (ocr_results !! "confidence") as [vc|]; [|discriminate].
  cbn [res_bind] in H.
  destruct (ocr_results !! "processing_time") as [vt|]; [|discriminate].
  cbn [res_bind] in H.
  destruct (ocr_results !! "text") as [vs|]; [|discriminate].
  cbn [res_bind] in H.
  destruct (py_len vs) as [n|]; [|discriminate]. cbn [res_bind] in H.
  destruct vc as [|?|c|?|?]; try discriminate. cbn [res_bind as_num] in H.
  exists c. split; [reflexivity|].
  destruct (Qgeb c (min_confidence thresholds)); [|discriminate].
  destruct (as_num vt) as [t|]; [|discriminate]. cbn [res_bind] in H.
  inversion H as [[Hs Hm]].
  rewrite !andb_true_iff in Hs. destruct Hs as [_ He].
  apply Qleb_true in He. unfold thresholds in He; cbn [max_error_rate] in He. lra.
Qed.

(** C1. A result with confidence 99.5, ten seconds of processing and fifty
    characters of text meets every documented threshold (confidence at
    least 99.0, at most 300 seconds, at least 50 characters, error rate
    [100 - 99.5 = 0.5] at most 1.0), and [validate_results] reports it as
    failed: the error rate is held against 0.01. *)
Theorem validate_results_rejects_documented_pass :
  documented_validation 99.5 10 fifty_chars = true /\
  (r <- validate_results
          (<["text" := VStr fifty_chars]>
           (<["confidence" := VNum 99.5]>
            (<["processing_time" := VNum 10]> ∅))) ;;
   Ok (fst r))%res = Ok false.
Proof.
  split; [reflexivity|]. vm_compute. reflexivity.
Qed.

End Validation.

(** ** [_calculate_field_confidence] *)

Section FieldConfidence.
Local Open Scope Q_scope.

Lemma string_any_exists (p : ascii -> bool) (s : string) :
  string_any p s = true <-> exists c, In c (chars s) /\ p c = true.
Proof.
  unfold chars. induction s as [|a s IH]; simpl.
  - split; [discriminate | intros (c & [] & _)].
  - rewrite orb_true_iff, IH. split.
    + intros [H | (c & Hin & Hc)]; [exists a | exists c]; auto.
    + intros (c & [-> | Hin] & Hc); [left | right; exists c]; auto.
Qed.

(** The test [any(p(c) for c in value)] holds exactly when some character
    of the value satisfies [p]. *)
Lemma string_any_decide (p : ascii -> bool) (s : string) :
  string_any p s = bool_decide (Exists (fun c => p c = true) (chars s)).
Proof.
  destruct (string_any p s) eqn:E; symmetry.
  - apply bool_decide_eq_true. apply Exists_exists.
    apply string_any_exists in E as (c & Hin & Hc).
    exists c. split; [apply list_elem_of_In; exact Hin | exact Hc].
  - apply bool_decide_eq_false. intros H. apply Exists_exists in H as (c & Hin & Hc).
    assert (string_any p s = true); [|congruence].
    apply string_any_exists. exists c. split; [apply list_elem_of_In; exact Hin | exact Hc].
Qed.

(** C4, as the code has it. On binary64 numbers, the field confidence is
    the base confidence multiplied, in sequence, by 0.9 if the value has
    fewer than three characters, by 0.95 if some character of the value is
    a digit, and by 0.98 if some character of the value is not
    alphanumeric (a space is such a character), each product rounded as
    float multiplication rounds it, and the last one rounded to two
    decimal places. *)
Theorem field_confidence_formula (value : string) (base_confidence : Binary64.float64) :
  Binary64._calculate_field_confidence value base_confidence =
  Binary64.round2
    (Binary64.scaled
       (bool_decide (Exists (fun c => isalnum c = false) (chars value)))
       (Binary64.nearest 98 100)
       (Binary64.scaled
          (bool_decide (Exists (fun c => isdigit c = true) (chars value)))
          (Binary64.nearest 95 100)
          (Binary64.scaled (bool_decide (String.length value < 3)%nat)
             (Binary64.nearest 9 10) base_confidence))).
Proof.
  unfold Binary64._calculate_field_confidence, Binary64.scaled.
  rewrite <- (string_any_decide isdigit value).
  assert (Hlen : Nat.ltb (String.length value) 3
                 = bool_decide (String.length value < 3)%nat).
  { destruct (Nat.ltb (String.length value) 3) eqn:E; symmetry.
    - apply bool_decide_eq_true, Nat.ltb_lt, E.
    - apply bool_decide_eq_false. intros H. apply Nat.ltb_lt in H. congruence. }
  assert (Hpunct : string_any (fun c => negb (isalnum c)) value
                   = bool_decide (Exists (fun c => isalnum c = false) (chars value))).
  { rewrite string_any_decide. apply bool_decide_ext.
    rewrite !Exists_exists. split; intros (c & Hin & Hc); exists c; split; auto.
    - apply negb_true_iff, Hc.
    - apply negb_true_iff, Hc. }
  rewrite Hlen, Hpunct. reflexivity.
Qed.

(** C4, counterexample. For the value "Acme Corp" and base confidence 100
    the code yields 98.0, and the documented formula, which exempts the
    space, yields 100.0. *)
Lemma field_confidence_counts_spaces :
  Binary64._calculate_field_confidence "Acme Corp" (Binary64.nearest 100 1)
    = Binary64.nearest 98 1 /\
  Binary64.documented_field_confidence "Acme Corp" (Binary64.nearest 100 1)
    = Binary64.nearest 100 1 /\
  Binary64._calculate_field_confidence "Acme Corp" (Binary64.nearest 100 1)
    <> Binary64.documented_field_confidence "Acme Corp" (Binary64.nearest 100 1).
Proof.
  repeat split; try (vm_compute; reflexivity). vm_compute. discriminate.
Qed.

(** At a decimal tie the float products decide: "12" at base 99 gives
    84.65 and a value with a digit at base 96.5 gives 91.67, where the
    rational reading of the same steps gives 84.64 and 91.68. *)
Example field_confidence_at_decimal_ties :
  Binary64._calculate_field_confidence "12" (Binary64.nearest 99 1)
    = Binary64.nearest 8465 100 /\
  Binary64._calculate_field_confidence "123456789" (Binary64.nearest 965 10)
    = Binary64.nearest 9167 100 /\
  _calculate_field_confidence "12" 99 == 8464 # 100 /\
  _calculate_field_confidence "123456789" 96.5 == 9168 # 100.
Proof.
  repeat split; vm_compute; reflexivity.
Qed.

(** Before rounding, the penalties never raise a non-negative base. *)
Lemma field_confidence_le_rounded_base (value : string) (base_confidence : Q) :
  0 <= base_confidence ->
  _calculate_field_confidence value base_confidence <= round2 base_confidence.
Proof.
  intros H. unfold _calculate_field_confidence.
  apply round2_mono.
  destruct (Nat.ltb (String.length value) 3);
    destruct (string_any isdigit value);
    destruct (string_any (fun c => negb (isalnum c)) value); lra.
Qed.

End FieldConfidence.

(** ** [extract_fields] *)

Section FieldExtraction.
Local Open Scope Q_scope.

Lemma extract_loop_entries (patterns : list (string * list Node)) (text : Value)
    (ocr_results : Dict) (base : Q) (acc fields : Dict) :
  ocr_results !! "confidence" = Some (VNum base) ->
  map_Forall (fun _ v => built_from base v) acc ->
  extract_loop patterns text ocr_results acc = Ok fields ->
  map_Forall (fun _ v => built_from base v) fields.
Proof.
  intros Hbase. revert acc.
  induction patterns as [|[field pattern] rest IH]; intros acc Hacc H.
  - cbn in H. inversion H; subst. exact Hacc.
  - cbn [extract_loop] in H.
    apply res_bind_ok in H as (s & Hs & H).
    destruct (re_search pattern s) as [g|].
    + unfold getitem in H. rewrite Hbase in H. cbn [res_bind as_num] in H.
      apply IH in H; [exact H|].
      apply map_Forall_insert_2; [|exact Hacc].
      exists (strip g). reflexivity.
    + apply IH in H; assumption.
Qed.

(** The names of the output are names of the schema of the document type. *)
Lemma extract_loop_names (patterns : list (string * list Node)) (text : Value)
    (ocr_results : Dict) (acc fields : Dict) (name : string) :
  extract_loop patterns text ocr_results acc = Ok fields ->
  is_Some (fields !! name) ->
  is_Some (acc !! name) \/ In name (map fst patterns).
Proof.
  revert acc. induction patterns as [|[field pattern] rest IH]; intros acc H Hin.
  - cbn in H. inversion H; subst. left. exact Hin.
  - cbn [extract_loop] in H.
    apply res_bind_ok in H as (s & Hs & H).
    destruct (re_search pattern s) as [g|].
    + apply res_bind_ok in H as (b & Hb & H).
      apply res_bind_ok in H as (q & Hq & H).
      destruct (IH _ H Hin) as [Hacc | Hrest].
      * destruct (decide (field = name)) as [->|Hne].
        -- right. left. reflexivity.
        -- left. rewrite lookup_insert_ne in Hacc by exact Hne. exact Hacc.
      * right. right. exact Hrest.
    + destruct (IH _ H Hin) as [Hacc | Hrest]; [left | right; right]; assumption.
Qed.

(** The names of the emitted fields belong to the schema of the document
    type. *)
Lemma extract_fields_names (document_type : string) (ocr_results fields : Dict)
    (name : string) :
  extract_fields document_type ocr_results = Ok fields ->
  is_Some (fields !! name) ->
  exists patterns,
    assoc document_type field_patterns = Some patterns /\
    In name (map fst patterns).
Proof.
  unfold extract_fields. intros H Hin.
  apply res_bind_ok in H as (text & _ & H).
  destruct (assoc document_type field_patterns) as [patterns|]; [|discriminate].
  exists patterns. split; [reflexivity|].
  destruct (extract_loop_names _ _ _ _ _ _ H Hin) as [Hacc | Hn]; [|exact Hn].
  rewrite lookup_empty in Hacc. destruct Hacc as [v Hv]. discriminate.
Qed.

(** C5, as the code has it. Every field that [extract_fields] emits was
    built from a matched value, and for a non-negative base confidence its
    confidence is at most the base confidence rounded to two decimal
    places, hence at most the base plus 0.005. *)
Theorem extract_fields_confidence_bound (document_type : string)
    (ocr_results fields : Dict) (base : Q) (name : string) (v : Value) :
  extract_fields document_type ocr_results = Ok fields ->
  ocr_results !! "confidence" = Some (VNum base) ->
  0 <= base ->
  fields !! name = Some v ->
  exists value c,
    v = field_entry value c /\
    c = _calculate_field_confidence value base /\
    c <= round2 base /\ c <= base + (1 # 200).
Proof.
  intros H Hbase Hpos Hv. unfold extract_fields in H.
  apply res_bind_ok in H as (text & _ & H).
  destruct (assoc document_type field_patterns) as [patterns|]; [|discriminate].
  assert (Hall : map_Forall (fun _ v => built_from base v) fields).
  { apply (extract_loop_entries patterns text ocr_results base ∅ fields Hbase);
      [apply map_Forall_empty | exact H]. }
  destruct (Hall name v Hv) as [value ->].
  exists value, (_calculate_field_confidence value base).
  pose proof (field_confidence_le_rounded_base value base Hpos) as Hle.
  pose proof (round2_near base) as [_ Hnear].
  repeat split; [exact Hle | lra].
Qed.

(** C5, counterexample. With base confidence 99.996 (the mean of 249
    words at 100 and one at 99) and the text "Business Name: Acme", the
    field [business_name] is emitted with confidence 100, above the base. *)
Lemma extract_fields_rounds_above_base :
  extract_fields "ISO_APPLICATION"
    (<["text" := VStr "Business Name: Acme"]> (<["confidence" := VNum 99.996]> ∅))
  = Ok (<["business_name" := field_entry "Acme" (round2 99.996)]> ∅)
  /\ round2 99.996 == 100 /\ 99.996 < round2 99.996.
Proof.
  split; [vm_compute; reflexivity|].
  split; [reflexivity|]. vm_compute. reflexivity.
Qed.

Lemma extract_fields_confidence_bound_witness :
  exists value c,
    field_entry "Acme" (round2 99.996) = field_entry value c /\
    c = _calculate_field_confidence value 99.996 /\
    c <= round2 99.996 /\ c <= 99.996 + (1 # 200).
Proof.
  apply (extract_fields_confidence_bound "ISO_APPLICATION"
           (<["text" := VStr "Business Name: Acme"]> (<["confidence" := VNum 99.996]> ∅))
           (<["business_name" := field_entry "Acme" (round2 99.996)]> ∅)
           99.996 "business_name").
  - vm_compute; reflexivity.
  - vm_compute; reflexivity.
  - vm_compute; discriminate.
  - vm_compute; reflexivity.
Defined.

(** The worked example of the design document: both fields of the text
    "Business Name: Acme Corp / EIN: 12-3456789" are found. *)
Example extract_fields_scenario_a :
  extract_fields "ISO_APPLICATION"
    (<["text" := VStr (String.append "Business Name: Acme Corp"
                         (String LF "EIN: 12-3456789"))]>
     (<["confidence" := VNum 92]> ∅))
  = Ok (<["business_name" :=
            field_entry "Acme Corp" (_calculate_field_confidence "Acme Corp" 92)]>
        (<["ein" :=
             field_entry "12-3456789" (_calculate_field_confidence "12-3456789" 92)]> ∅)).
Proof. vm_compute. reflexivity. Qed.

End FieldExtraction.

(** ** [Document] methods *)

Section DocumentMethods.

Lemma str_in_true (x : string) (l : list string) : str_in x l = true <-> x ∈ l.
Proof. unfold str_in. apply bool_decide_eq_true. Qed.

Lemma str_in_false (x : string) (l : list string) : str_in x l = false <-> x ∉ l.
Proof. unfold str_in. apply bool_decide_eq_false. Qed.

(** [dict.update]: the keys of the argument win, the other keys stay. *)
Lemma update_lookup (result_data meta : Dict) (key : string) :
  (result_data ∪ meta) !! key =
  match result_data !! key with
  | Some v => Some v
  | None => meta !! key
  end.
Proof.
  rewrite lookup_union. destruct (result_data !! key), (meta !! key); reflexivity.
Qed.

(** C7. A status outside the four processing statuses makes
    [update_processing_status] raise [ValueError] (the ValidationError of
    the design document) and leaves the whole document as it was; a status
    inside the set is accepted: the call returns, the status is set, the
    result data is merged into the metadata (its keys win), [updated_at]
    is the clock reading of the call, and no other attribute changes. *)
Theorem update_processing_status_spec (d : Document) (status : string)
    (result_data : Dict) (now : Time) :
  (status ∉ PROCESSING_STATUSES ->
   update_processing_status status result_data now d =
   (Raise (ValueError (String.append "Invalid processing status: " status)), d))
  /\
  (status ∈ PROCESSING_STATUSES ->
   exists d',
     update_processing_status status result_data now d = (Ok tt, d') /\
     processing_status d' = status /\
     (forall key,
        metadata d' !! key =
        match result_data !! key with
        | Some v => Some v
        | None => metadata d !! key
        end) /\
     updated_at d' = now /\
     (updated_at d <= now -> updated_at d <= updated_at d')%Z /\
     d' = set_updated_at now
            (set_metadata (result_data ∪ metadata d)
               (set_processing_status status d))).
Proof.
  split; intros H; unfold update_processing_status.
  - apply str_in_false in H. rewrite H. reflexivity.
  - apply str_in_true in H. rewrite H. cbn.
    eexists. split; [reflexivity|]. cbn.
    repeat split; try reflexivity.
    + intros key. apply update_lookup.
    + intros Hle. exact Hle.
Qed.

Lemma update_processing_status_spec_witness :
  update_processing_status "ARCHIVED" (<["note" := VStr "x"]> ∅) 2000%Z sample_document =
    (Raise (ValueError "Invalid processing status: ARCHIVED"), sample_document)
  /\
  exists d',
    update_processing_status "PROCESSING" (<["note" := VStr "x"]> ∅) 2000%Z
      sample_document = (Ok tt, d') /\
    processing_status d' = "PROCESSING" /\
    metadata d' !! "note" = Some (VStr "x") /\
    updated_at d' = 2000%Z.
Proof.
  split.
  - apply (update_processing_status_spec sample_document "ARCHIVED"
             (<["note" := VStr "x"]> ∅) 2000%Z).
    vm_compute. intros H. inversion H as [|? ? ? H1]; subst.
    inversion H1 as [|? ? ? H2]; subst. inversion H2 as [|? ? ? H3]; subst.
    inversion H3 as [|? ? ? H4]; subst. inversion H4.
  - destruct (proj2 (update_processing_status_spec sample_document "PROCESSING"
                       (<["note" := VStr "x"]> ∅) 2000%Z))
      as (d' & Hrun & Hst & Hmeta & Hup & _).
    + apply str_in_true. vm_compute. reflexivity.
    + exists d'. repeat split; try assumption.
      rewrite Hmeta. vm_compute. reflexivity.
Defined.

(** C10. From a terminal status, COMPLETED or FAILED, every target status
    of the fixed set is accepted and overwrites the status: the method
    puts no restriction on leaving a terminal state. *)
Theorem update_processing_status_from_terminal (d : Document) (status : string)
    (result_data : Dict) (now : Time) :
  processing_status d = "COMPLETED" \/ processing_status d = "FAILED" ->
  status ∈ PROCESSING_STATUSES ->
  exists d',
    update_processing_status status result_data now d = (Ok tt, d') /\
    processing_status d' = status.
Proof.
  intros _ H. unfold update_processing_status.
  apply str_in_true in H. rewrite H. cbn.
  eexists. split; reflexivity.
Qed.

Lemma update_processing_status_from_terminal_witness :
  exists d',
    update_processing_status "PENDING" ∅ 3000%Z
      (set_processing_status "COMPLETED" sample_document) = (Ok tt, d') /\
    processing_status d' = "PENDING".
Proof.
  apply (update_processing_status_from_terminal
           (set_processing_status "COMPLETED" sample_document) "PENDING" ∅ 3000%Z).
  - left. reflexivity.
  - apply str_in_true. vm_compute. reflexivity.
Defined.

End DocumentMethods.

(** ** [store_ocr_result] and the shape of [ocr_result] *)

Section OcrResultShape.








End OcrResultShape.

(** ** [classify_document] *)

Section ClassifierProperties.
Local Open Scope Q_scope.

Variable s3_download : Document -> Res unit.
Variable magic_from_file : Document -> string.
Variable pdf_page_texts : Document -> Res (list string).
Variable predict_proba : string -> Res (list (list Q)).

Local Abbreviation classify :=
  (classify_document s3_download magic_from_file pdf_page_texts predict_proba).
Local Abbreviation extract :=
  (extract_text s3_download magic_from_file pdf_page_texts).

(** [numpy.argmax]: the index it returns holds a largest entry. *)
Lemma argmax_from_spec (full l : list Q) :
  forall (best_i : nat) (best : Q) (i : nat),
    drop i full = l ->
    full !! best_i = Some best ->
    (forall k x, (k < i)%nat -> full !! k = Some x -> x <= best) ->
    exists m,
      full !! argmax_from best_i best i l = Some m /\
      forall x, x ∈ full -> x <= m.
Proof.
  induction l as [|x l IH]; intros best_i best i Hdrop Hbest Hmax.
  - exists best. split; [exact Hbest|].
    intros x Hx. apply list_elem_of_lookup in Hx as [k Hk].
    apply (Hmax k x); [|exact Hk].
    destruct (Nat.lt_ge_cases k i) as [Hlt | Hge]; [exact Hlt|].
    exfalso. apply lookup_lt_Some in Hk.
    assert (Hlen : length (drop i full) = 0%nat) by (rewrite Hdrop; reflexivity).
    rewrite length_drop in Hlen. lia.
  - assert (Hi : full !! i = Some x).
    { rewrite <- (Nat.add_0_r i), <- lookup_drop, Hdrop. reflexivity. }
    assert (Hdrop' : drop (S i) full = l).
    { pose proof (drop_S full x i Hi) as Hd. rewrite Hdrop in Hd.
      inversion Hd. reflexivity. }
    cbn [argmax_from]. destruct (Qltb best x) eqn:E.
    + apply Qltb_true in E. apply (IH i x (S i) Hdrop' Hi).
      intros k y Hk Hy. destruct (Nat.eq_dec k i) as [-> | Hne].
      * rewrite Hi in Hy. inversion Hy; subst. apply Qle_refl.
      * apply Qle_trans with best; [|apply Qlt_le_weak; exact E].
        apply (Hmax k y); [lia | exact Hy].
    + apply Qltb_false in E. apply (IH best_i best (S i) Hdrop' Hbest).
      intros k y Hk Hy. destruct (Nat.eq_dec k i) as [-> | Hne].
      * rewrite Hi in Hy. inversion Hy; subst. exact E.
      * apply (Hmax k y); [lia | exact Hy].
Qed.

(** On a single probability row the selected entry exists and is a largest
    one: the confidence is the largest probability. *)
Lemma np_argmax_row (row : list Q) (idx : nat) :
  np_argmax [row] = Ok idx ->
  exists m, row !! idx = Some m /\ forall x, x ∈ row -> x <= m.
Proof.
  unfold np_argmax. cbn [concat]. rewrite app_nil_r.
  destruct row as [|x l] eqn:Hrow; [discriminate|].
  intros H. inversion H as [Hidx].
  apply (argmax_from_spec (x :: l) l 0 x 1); [reflexivity | reflexivity |].
  intros k y Hk Hy. assert (k = 0%nat) as -> by lia.
  cbn in Hy. inversion Hy; subst. apply Qle_refl.
Qed.

(** What [set_classification] does with a label of the fixed set. *)
Lemma set_classification_valid (ty : string) (meta : Dict) (now : Time) (d : Document) :
  ty ∈ DOCUMENT_TYPES ->
  set_classification ty meta now d =
  (Ok tt,
   set_updated_at now
     (set_metadata (<["classification" := VDict meta]> (metadata d))
        (set_classification_result (Some ty) (set_document_type (Some ty) d)))).
Proof.
  intros H. unfold set_classification.
  apply str_in_true in H. rewrite H. reflexivity.
Qed.

(** A run in which extraction and inference succeed and the selected index
    is within the label list. *)
Lemma classify_document_run (now : Time) (d : Document) (text : string)
    (probs : list (list Q)) (idx : nat) (row : list Q) (conf : Q) (label : string) :
  extract d = Ok text ->
  text <> EmptyString ->
  predict_proba (preprocess_text text) = Ok probs ->
  np_argmax probs = Ok idx ->
  probs !! 0%nat = Some row ->
  row !! idx = Some conf ->
  DOCUMENT_TYPES !! idx = Some label ->
  classify now d = (Ok (label, conf), after_threshold now d label conf).
Proof.
  intros Hx Hne Hp Ha Hr Hc Hl.
  unfold classify_document, bind, get, lift.
  rewrite Hx. apply is_empty_false in Hne. rewrite Hne, Hp, Ha.
  apply list_getitem_ok in Hr, Hc. rewrite Hr, Hc.
  pose proof (proj2 (list_getitem_ok _ _ _) Hl) as Hl'. rewrite Hl'.
  unfold after_threshold.
  destruct (Qgeb conf CONFIDENCE_THRESHOLD).
  - rewrite set_classification_valid; [reflexivity|].
    apply list_elem_of_lookup. eauto.
  - reflexivity.
Qed.

(** Every returning run is of that kind. *)
Lemma classify_document_ok (now : Time) (d d' : Document) (label : string) (conf : Q) :
  classify now d = (Ok (label, conf), d') ->
  exists text probs idx row,
    extract d = Ok text /\ text <> EmptyString /\
    predict_proba (preprocess_text text) = Ok probs /\
    np_argmax probs = Ok idx /\
    probs !! 0%nat = Some row /\ row !! idx = Some conf /\
    DOCUMENT_TYPES !! idx = Some label.
Proof.
  unfold classify_document. intros H.
  apply bind_ok in H as (doc & d1 & Hg & H). apply get_ok in Hg as [-> ->].
  apply bind_ok in H as (text & d2 & Hx & H). apply lift_ok in Hx as [Hx ->].
  destruct (is_empty text) eqn:Hne; [discriminate|].
  apply bind_ok in H as (probs & d3 & Hp & H). apply lift_ok in Hp as [Hp ->].
  apply bind_ok in H as (idx & d4 & Ha & H). apply lift_ok in Ha as [Ha ->].
  apply bind_ok in H as (row & d5 & Hr & H). apply lift_ok in Hr as [Hr ->].
  apply bind_ok in H as (c & d6 & Hc & H). apply lift_ok in Hc as [Hc ->].
  apply bind_ok in H as (ty & d7 & Hl & H). apply lift_ok in Hl as [Hl ->].
  apply bind_ok in H as ([] & d8 & _ & H). apply ret_ok in H as [Heq _].
  inversion Heq; subst.
  exists text, probs, idx, row.
  apply list_getitem_ok in Hr. apply list_getitem_ok in Hc.
  apply list_getitem_ok in Hl. apply is_empty_false in Hne.
  repeat split; assumption.
Qed.

(** C3. Whenever extraction and inference succeed, [classify_document]
    returns the predicted label with its confidence, whatever the
    confidence is.  At or above 0.85 the document's [document_type] and
    [classification_result] are set to the label; below 0.85 the call is
    an ordinary return that leaves the whole document as it was.  So on a
    document with both fields unset, each field is set after the call
    exactly when the confidence is at least 0.85. *)
Theorem classify_document_threshold (now : Time) (d : Document) (text : string)
    (probs : list (list Q)) (idx : nat) (row : list Q) (conf : Q) (label : string) :
  extract d = Ok text ->
  text <> EmptyString ->
  predict_proba (preprocess_text text) = Ok probs ->
  np_argmax probs = Ok idx ->
  probs !! 0%nat = Some row ->
  row !! idx = Some conf ->
  DOCUMENT_TYPES !! idx = Some label ->
  exists d',
    classify now d = (Ok (label, conf), d') /\
    (CONFIDENCE_THRESHOLD <= conf ->
     document_type d' = Some label /\ classification_result d' = Some label) /\
    (conf < CONFIDENCE_THRESHOLD -> d' = d) /\
    (document_type d = None -> classification_result d = None ->
     (is_Some (classification_result d') <-> 0.85 <= conf) /\
     (is_Some (document_type d') <-> 0.85 <= conf)).
Proof.
  intros Hx Hne Hp Ha Hr Hc Hl.
  exists (after_threshold now d label conf).
  split; [eapply classify_document_run; eassumption|].
  unfold after_threshold.
  destruct (Qgeb conf CONFIDENCE_THRESHOLD) eqn:E.
  - apply Qgeb_true in E. change CONFIDENCE_THRESHOLD with 0.85 in *.
    repeat split; cbn; eauto; intros; exfalso; lra.
  - apply Qgeb_false in E. change CONFIDENCE_THRESHOLD with 0.85 in *.
    repeat split; try (intros; exfalso; lra).
    + intros [x Hs]. congruence.
    + intros [x Hs]. congruence.
Qed.

(** C9. When [classify_document] returns, the label is one of the five
    document types, selected at an index inside the label list; and with a
    model whose outputs are probabilities, the confidence lies between 0
    and 1. *)
Theorem classify_document_range (now : Time) (d d' : Document) (label : string) (conf : Q) :
  (forall text probs,
     predict_proba text = Ok probs ->
     Forall (Forall (fun p => 0 <= p <= 1)) probs) ->
  classify now d = (Ok (label, conf), d') ->
  0 <= conf <= 1 /\
  label ∈ DOCUMENT_TYPES /\
  exists idx, (idx < length DOCUMENT_TYPES)%nat /\ DOCUMENT_TYPES !! idx = Some label.
Proof.
  intros Hprob H.
  apply classify_document_ok in H
    as (text & probs & idx & row & Hx & Hne & Hp & Ha & Hr & Hc & Hl).
  split; [|split].
  - specialize (Hprob _ _ Hp).
    rewrite Forall_lookup in Hprob. specialize (Hprob _ _ Hr).
    rewrite Forall_lookup in Hprob. exact (Hprob _ _ Hc).
  - apply list_elem_of_lookup. eauto.
  - exists idx. split; [|exact Hl]. apply lookup_lt_Some in Hl. exact Hl.
Qed.

End ClassifierProperties.

(** ** The page loop *)

Section PageLoop.
Local Open Scope Q_scope.

Variable py_float : string -> Res Q.

Lemma has_text_check (line : string) :
  Nat.ltb 11 (length (split_on TAB line))
  && negb (is_empty (strip (nth 11 (split_on TAB line) EmptyString))) = true
  <-> has_text line.
Proof.
  unfold has_text, columns.
  rewrite andb_true_iff, Nat.ltb_lt, negb_true_iff, is_empty_false. reflexivity.
Qed.

Lemma row_conf_read (line : string) (c : Q) :
  row_conf py_float line c ->
  (if negb (String.eqb (nth 10 (split_on TAB line) EmptyString) "-1")
   then py_float (nth 10 (split_on TAB line) EmptyString)
   else Ok 0) = Ok c.
Proof.
  unfold row_conf, columns. intros [[Hm ->] | [Hm Hf]].
  - rewrite Hm. reflexivity.
  - apply String.eqb_neq in Hm. rewrite Hm. exact Hf.
Qed.

Lemma parse_line_keep (line : string) (c : Q) :
  has_text line -> row_conf py_float line c -> 0 < c ->
  parse_line py_float line = Ok (Some (nth 11 (columns line) EmptyString, c)).
Proof.
  intros Ht Hc Hpos. unfold parse_line.
  apply has_text_check in Ht. rewrite Ht.
  rewrite (row_conf_read line c Hc). cbn [res_bind].
  apply Qltb_true in Hpos. rewrite Hpos. reflexivity.
Qed.

Lemma parse_line_blank (line : string) :
  ~ has_text line -> parse_line py_float line = Ok None.
Proof.
  intros Ht. unfold parse_line.
  destruct (Nat.ltb 11 (length (split_on TAB line))
            && negb (is_empty (strip (nth 11 (split_on TAB line) EmptyString)))) eqn:E;
    [|reflexivity].
  apply has_text_check in E. contradiction.
Qed.

Lemma parse_line_unsure (line : string) (c : Q) :
  has_text line -> row_conf py_float line c -> c <= 0 ->
  parse_line py_float line = Ok None.
Proof.
  intros Ht Hc Hle. unfold parse_line.
  apply has_text_check in Ht. rewrite Ht.
  rewrite (row_conf_read line c Hc). cbn [res_bind].
  apply Qltb_false in Hle. rewrite Hle. reflexivity.
Qed.

(** The loop appends the surviving rows, in order, to its accumulators. *)
Lemma page_loop_survivors (lines : list string) (kept : list (string * Q)) :
  survivors py_float lines kept ->
  forall page_text page_confidence,
    page_loop py_float lines page_text page_confidence =
    Ok (page_text ++ map fst kept, page_confidence ++ map snd kept).
Proof.
  induction 1 as [| line rest c kept Ht Hc Hpos _ IH
                  | line rest kept Ht _ IH
                  | line rest c kept Ht Hc Hle _ IH]; intros pt pc.
  - cbn. rewrite !app_nil_r. reflexivity.
  - cbn [page_loop]. rewrite (parse_line_keep line c Ht Hc Hpos). cbn [res_bind].
    rewrite IH. cbn [map fst snd]. rewrite <- !app_assoc. reflexivity.
  - cbn [page_loop]. rewrite (parse_line_blank line Ht). cbn [res_bind]. apply IH.
  - cbn [page_loop]. rewrite (parse_line_unsure line c Ht Hc Hle). cbn [res_bind].
    apply IH.
Qed.

(** When the confidence column of every row with a text can be read, the
    surviving rows exist. *)
Lemma survivors_exist (lines : list string) :
  (forall line, In line lines -> has_text line -> exists c, row_conf py_float line c) ->
  exists kept, survivors py_float lines kept.
Proof.
  induction lines as [|line rest IH]; intros Hread.
  - exists []. constructor.
  - destruct IH as [kept Hk]; [intros l Hl; apply Hread; right; exact Hl|].
    destruct (Nat.ltb 11 (length (split_on TAB line))
              && negb (is_empty (strip (nth 11 (split_on TAB line) EmptyString)))) eqn:E.
    + apply has_text_check in E.
      destruct (Hread line (or_introl eq_refl) E) as [c Hc].
      destruct (Qlt_le_dec 0 c) as [Hpos | Hle].
      * eexists. eapply survivors_keep; eassumption.
      * exists kept. eapply survivors_unsure; eassumption.
    + exists kept. apply survivors_blank; [|exact Hk].
      intros Ht. apply has_text_check in Ht. congruence.
Qed.

Lemma mean_times_length (l : list Q) :
  l <> [] -> mean l * inject_Z (Z.of_nat (length l)) == Qsum l.
Proof.
  intros Hne. unfold mean. field.
  intros H.
  assert (Hz : inject_Z (Z.of_nat (length l)) == inject_Z 0) by exact H.
  apply inject_Z_injective in Hz.
  destruct l as [|x l]; [congruence|]. discriminate Hz.
Qed.





(** One page that kept a token. *)
Lemma process_page_kept (st : LoopState) (report : list string)
    (kept : list (string * Q)) :
  survivors py_float (tl report) kept ->
  kept <> [] ->
  process_page py_float st report =
  Ok (mkLoopState
        (results st ++ [join (String LF EmptyString) (map fst kept)])
        (confidence_scores st ++ [mean (map snd kept)])
        (Some (mean (map snd kept)))).
Proof.
  intros Hs Hne. unfold process_page.
  rewrite (page_loop_survivors _ _ Hs). cbn [res_bind app].
  destruct kept as [|[t c] kept]; [congruence | reflexivity].
Qed.

(** One page that kept none, after [avg_confidence] was bound. *)
Lemma process_page_skipped (st : LoopState) (report : list string) :
  survivors py_float (tl report) [] ->
  is_Some (avg_confidence st) ->
  process_page py_float st report = Ok st.
Proof.
  intros Hs [a Ha]. unfold process_page.
  rewrite (page_loop_survivors _ _ Hs). cbn [res_bind app map].
  rewrite Ha. reflexivity.
Qed.

(** One page that kept none, before any page has bound [avg_confidence]. *)
Lemma process_page_unbound (st : LoopState) (report : list string) :
  survivors py_float (tl report) [] ->
  avg_confidence st = None ->
  process_page py_float st report = Raise (UnboundLocalError "avg_confidence").
Proof.
  intros Hs Ha. unfold process_page.
  rewrite (page_loop_survivors _ _ Hs). cbn [res_bind app map].
  rewrite Ha. reflexivity.
Qed.

(** C6. What the page loop does with the report of one page.  It keeps, in
    order, exactly the rows that have a twelfth column with a non-blank
    text and a confidence above 0.  When at least one row is kept, the
    page adds one text, the kept tokens joined by newlines (and not by
    single spaces), and one confidence, the arithmetic mean of the kept
    confidences.  When no row is kept the page has no result: nothing is
    added, no confidence 0 either, and the line that logs the page reads
    [avg_confidence] as an earlier page left it, or raises
    [UnboundLocalError] when no earlier page has bound it. *)
Theorem process_page_spec (st : LoopState) (report : list string)
    (kept : list (string * Q)) :
  survivors py_float (tl report) kept ->
  page_loop py_float (tl report) [] [] = Ok (map fst kept, map snd kept) /\
  (kept <> [] ->
   process_page py_float st report =
   Ok (mkLoopState
         (results st ++ [join (String LF EmptyString) (map fst kept)])
         (confidence_scores st ++ [mean (map snd kept)])
         (Some (mean (map snd kept)))) /\
   mean (map snd kept) * inject_Z (Z.of_nat (length kept)) == Qsum (map snd kept))
  /\
  (kept = [] ->
   process_page py_float st report =
   match avg_confidence st with
   | Some _ => Ok st
   | None => Raise (UnboundLocalError "avg_confidence")
   end).
Proof.
  intros Hs. split; [|split].
  - rewrite (page_loop_survivors _ _ Hs). reflexivity.
  - intros Hne. split; [apply process_page_kept; assumption|].
    rewrite <- (length_map snd kept).
    apply mean_times_length. destruct kept; [congruence | discriminate].
  - intros ->. destruct (avg_confidence st) as [a|] eqn:Ha.
    + apply process_page_skipped; [exact Hs | rewrite Ha; eauto].
    + apply process_page_unbound; assumption.
Qed.

End PageLoop.

(** ** [process_document] *)

Section DocumentConfidence.
Local Open Scope Q_scope.

Variable py_float : string -> Res Q.
Variable ocr_settings : OcrSettings.





Lemma compile_results_text (st : LoopState) (t : Q) (n : nat) :
  compile_results ocr_settings st t n !! "text" =
  Some (VStr (join (String LF (String LF EmptyString)) (results st))).
Proof. unfold compile_results. apply lookup_insert_eq. Qed.

Lemma compile_results_confidence (st : LoopState) (t : Q) (n : nat) :
  compile_results ocr_settings st t n !! "confidence" =
  Some (VNum match confidence_scores st with
             | [] => 0
             | _ :: _ => mean (confidence_scores st)
             end).
Proof.
  unfold compile_results.
  rewrite lookup_insert_ne by discriminate. apply lookup_insert_eq.
Qed.

Lemma compile_results_processing_time (st : LoopState) (t : Q) (n : nat) :
  compile_results ocr_settings st t n !! "processing_time" = Some (VNum t).
Proof.
  unfold compile_results.
  rewrite !lookup_insert_ne by discriminate. apply lookup_insert_eq.
Qed.

(** A payload with the three keys and a text that has a length is stored. *)
Lemma store_ocr_result_ok (ocr_data : Dict) (s : string) (vc vt : Value)
    (stamp now : Time) (d : Document) :
  ocr_data !! "text" = Some (VStr s) ->
  ocr_data !! "confidence" = Some vc ->
  ocr_data !! "processing_time" = Some vt ->
  exists d',
    store_ocr_result ocr_data stamp now d = (Ok tt, d') /\
    ocr_result d' = ocr_data /\
    processing_status d' = processing_status d /\
    updated_at d' = now.
Proof.
  intros Hs Hc Ht. unfold store_ocr_result, required_fields.
  cbn [forallb]. unfold has_key. rewrite Hs, Hc, Ht.
  cbn [andb negb]. unfold bind, modify, lift, getitem, ret.
  rewrite Ht, Hc. cbn.
  eexists. split; [reflexivity|]. cbn. auto.
Qed.


(** The compiled result always validates without raising, and is always
    stored, whatever the validation says. *)
Lemma validate_and_store_run (ocr_results : Dict) (c t : Q) (s : string)
    (stamp now : Time) (d : Document) :
  ocr_results !! "confidence" = Some (VNum c) ->
  ocr_results !! "processing_time" = Some (VNum t) ->
  ocr_results !! "text" = Some (VStr s) ->
  exists d',
    validate_and_store ocr_results stamp now d = (Ok ocr_results, d') /\
    store_ocr_result ocr_results stamp now d = (Ok tt, d').
Proof.
  intros Hc Ht Hs.
  destruct (validate_results_status ocr_results c t s Hc Ht Hs)
    as (status & metrics & Hv & _).
  destruct (store_ocr_result_ok ocr_results s (VNum c) (VNum t) stamp now d Hs Hc Ht)
    as (d' & Hstore & _).
  exists d'. split; [|exact Hstore].
  unfold validate_and_store, bind, lift, ret. rewrite Hv, Hstore. reflexivity.
Qed.

(** [process_document] stops where it first reads [time]. *)
Lemma process_document_run (reports : list (list string)) (processing_time : Q)
    (stamp now : Time) (d : Document) :
  process_document py_float ocr_settings reports processing_time stamp now d
  = (Raise (NameError "time"), d).
Proof. reflexivity. Qed.

End DocumentConfidence.

(** ** Worked inputs *)

Section WorkedInputs.
Local Open Scope Q_scope.

Lemma word_line_survives (conf text : string) (c : Q) :
  has_text (word_line conf text) ->
  row_conf decimal_float (word_line conf text) c ->
  0 < c ->
  nth 11 (columns (word_line conf text)) EmptyString = text ->
  survivors decimal_float [word_line conf text] [(text, c)].
Proof.
  intros Ht Hc Hpos Htext.
  rewrite <- Htext at 2.
  apply survivors_keep; [assumption | assumption | assumption | constructor].
Defined.

Lemma hello_survives :
  survivors decimal_float [word_line "90" "Hello"] [("Hello", 90)].
Proof.
  apply word_line_survives.
  - split; [vm_compute; repeat constructor | vm_compute; discriminate].
  - right. split; [vm_compute; discriminate | vm_compute; reflexivity].
  - reflexivity.
  - vm_compute. reflexivity.
Defined.

(** The state of the loop after a first page with the single word
    "Hello" at confidence 90. *)
Lemma after_hello_page :
  process_page decimal_float (mkLoopState [] [] None)
    [header_line; word_line "90" "Hello"]
  = Ok (mkLoopState ["Hello"] [mean [90]] (Some (mean [90]))).
Proof. vm_compute. reflexivity. Qed.

Lemma survivors_keep_as (line : string) (rest : list string) (c : Q)
    (kept : list (string * Q)) (text : string) :
  has_text line -> row_conf decimal_float line c -> 0 < c ->
  nth 11 (columns line) EmptyString = text ->
  survivors decimal_float rest kept ->
  survivors decimal_float (line :: rest) ((text, c) :: kept).
Proof.
  intros Ht Hc Hpos <- Hk. apply survivors_keep; assumption.
Defined.

(** Of the five rows of the sample report, the first and the last
    survive. *)
Lemma sample_report_survivors :
  survivors decimal_float (tl sample_report) [("Sample", 96); ("Business", 92)].
Proof.
  unfold sample_report. cbn [tl].
  apply survivors_keep_as.
  { split; [vm_compute; repeat constructor | vm_compute; discriminate]. }
  { right. split; [vm_compute; discriminate | vm_compute; reflexivity]. }
  { reflexivity. }
  { vm_compute. reflexivity. }
  apply (survivors_unsure decimal_float _ _ 0).
  { split; [vm_compute; repeat constructor | vm_compute; discriminate]. }
  { left. split; [vm_compute; reflexivity | reflexivity]. }
  { discriminate. }
  apply survivors_blank.
  { intros [_ H]. apply H. vm_compute. reflexivity. }
  apply (survivors_unsure decimal_float _ _ 0).
  { split; [vm_compute; repeat constructor | vm_compute; discriminate]. }
  { right. split; [vm_compute; discriminate | vm_compute; reflexivity]. }
  { discriminate. }
  apply survivors_keep_as.
  { split; [vm_compute; repeat constructor | vm_compute; discriminate]. }
  { right. split; [vm_compute; discriminate | vm_compute; reflexivity]. }
  { reflexivity. }
  { vm_compute. reflexivity. }
  constructor.
Defined.

(** C6 at the sample report: the two kept tokens are joined by a newline,
    where the documented page text has them joined by a space; the page
    confidence is the mean of 96 and 92. *)
Lemma process_page_spec_witness :
  (process_page decimal_float (mkLoopState [] [] None) sample_report
   = Ok (mkLoopState
           ([] ++ [join (String LF EmptyString)
                     (map fst [("Sample", 96); ("Business", 92)])])
           ([] ++ [mean (map snd [("Sample", 96); ("Business", 92)])])
           (Some (mean (map snd [("Sample", 96); ("Business", 92)]))))
   /\ mean (map snd [("Sample", 96); ("Business", 92)])
        * inject_Z (Z.of_nat (length [("Sample", 96); ("Business", 92)]))
      == Qsum (map snd [("Sample", 96); ("Business", 92)]))
  /\ join (String LF EmptyString) (map fst [("Sample", 96); ("Business", 92)])
     = String.append "Sample" (String LF "Business")
  /\ documented_page_result [("Sample", 96); ("Business", 92)]
     = ("Sample Business", mean [96; 92])
  /\ String.append "Sample" (String LF "Business") <> "Sample Business".
Proof.
  split.
  - apply (proj1 (proj2 (process_page_spec decimal_float (mkLoopState [] [] None)
                           sample_report [("Sample", 96); ("Business", 92)]
                           sample_report_survivors))).
    discriminate.
  - split; [reflexivity|]. split; [reflexivity | discriminate].
Defined.

(** A page on which no token survives has no result.  As the first page
    it stops the loop, since the line that logs the page reads
    [avg_confidence] before any page has bound it; after a page that kept
    a token it leaves the results as they are.  The documented page result
    is an empty text with confidence 0. *)
Example process_page_without_tokens :
  process_page decimal_float (mkLoopState [] [] None) blank_report
    = Raise (UnboundLocalError "avg_confidence") /\
  process_page decimal_float (mkLoopState ["Hello"] [mean [90]] (Some (mean [90])))
    blank_report
    = Ok (mkLoopState ["Hello"] [mean [90]] (Some (mean [90]))) /\
  documented_page_result [] = (EmptyString, 0).
Proof.
  split; [vm_compute; reflexivity|].
  split; [vm_compute; reflexivity | reflexivity].
Qed.

(** Of the three module names the file reads without importing them,
    [time] is the first that [process_document] meets; [np], which the
    file imports, is bound. *)
Example names_never_imported :
  global_name "time" = Raise (NameError "time") /\
  global_name "io" = Raise (NameError "io") /\
  global_name "cv2" = Raise (NameError "cv2") /\
  global_name "np" = Ok tt.
Proof. repeat split; reflexivity. Qed.

(** C2. [process_document] produces no result at all: whatever the
    document, it raises [NameError] where it first reads [time], a name
    the module never imports, and the document is as before.  The lines
    that would compute the confidence leave a page without tokens out of
    the mean instead of counting it as 0: on the three sample pages, with
    page confidences 94 and 90 and a blank page between them, they give
    92, where the documented mean over all three pages is 184/3. *)
Theorem process_document_raises_name_error :
  (forall py_float ocr_settings reports processing_time stamp now d,
     process_document py_float ocr_settings reports processing_time stamp now d
     = (Raise (NameError "time"), d))
  /\
  process_pages decimal_float (mkLoopState [] [] None) sample_pages
  = Ok (mkLoopState
          [String.append "Sample" (String LF "Business"); "Hello"]
          [mean [96; 92]; mean [90]] (Some (mean [90])))
  /\
  compile_results default_settings
    (mkLoopState
       [String.append "Sample" (String LF "Business"); "Hello"]
       [mean [96; 92]; mean [90]] (Some (mean [90]))) 12 3
    !! "confidence" = Some (VNum (mean [mean [96; 92]; mean [90]]))
  /\
  mean [mean [96; 92]; mean [90]] == 92
  /\
  documented_confidence [[96; 92]; []; [90]] == 184 # 3.
Proof.
  split; [intros; reflexivity|].
  split; [vm_compute; reflexivity|].
  split; [apply compile_results_confidence|].
  split; reflexivity.
Qed.

Lemma classify_document_threshold_witness :
  exists d',
    sample_classify 1700%Z sample_document = (Ok ("BANK_STATEMENT", 0.75), d') /\
    d' = sample_document.
Proof.
  destruct (classify_document_threshold (fun _ => Ok tt) (fun _ => "application/pdf")
              (fun _ => Ok ["Test document content"]) (fun _ => Ok sample_probs)
              1700%Z sample_document "Test document content" sample_probs
              1%nat [0; 0.75; 0; 0; 0] 0.75 "BANK_STATEMENT")
    as (d' & Hrun & _ & Hlow & _).
  - vm_compute. reflexivity.
  - discriminate.
  - reflexivity.
  - vm_compute. reflexivity.
  - reflexivity.
  - reflexivity.
  - reflexivity.
  - exists d'. split; [exact Hrun|]. apply Hlow. vm_compute. reflexivity.
Defined.

Lemma classify_document_range_witness :
  0 <= 0.75 <= 1 /\
  "BANK_STATEMENT" ∈ DOCUMENT_TYPES /\
  exists idx, (idx < length DOCUMENT_TYPES)%nat /\
              DOCUMENT_TYPES !! idx = Some "BANK_STATEMENT".
Proof.
  apply (classify_document_range (fun _ => Ok tt) (fun _ => "application/pdf")
           (fun _ => Ok ["Test document content"]) (fun _ => Ok sample_probs)
           1700%Z sample_document sample_document "BANK_STATEMENT" 0.75).
  - intros text probs H. inversion H; subst.
    repeat constructor; vm_compute; discriminate.
  - vm_compute. reflexivity.
Defined.

End WorkedInputs.

(** * Further properties of the code *)

(** ** The document record across calls *)

Section DocumentRuns.

(** Unfolds one call down to the record it leaves. *)
Ltac crush_call :=
  cbn [run_call];
  unfold upload_to_storage, update_processing_status, set_classification,
    store_ocr_result, bind, get, lift, modify, ret, raise, getitem;
  repeat match goal with
         | |- context [if ?b then _ else _] => destruct b eqn:?
         | |- context [match ?x with _ => _ end] => destruct x eqn:?
         end.

(** X1. [set_classification] rejects a type outside the five document
    types with [ValueError] and leaves the document as it was; for a type
    of the list it sets [document_type] and [classification_result] to
    that type, stores the metadata under the key [classification] without
    touching the other keys, sets [updated_at] to the clock reading, and
    leaves the processing status and the OCR result alone. *)
Theorem set_classification_spec (d : Document) (ty : string) (meta : Dict) (now : Time) :
  (ty ∉ DOCUMENT_TYPES ->
   set_classification ty meta now d =
   (Raise (ValueError (String.append "Invalid document type: " ty)), d))
  /\
  (ty ∈ DOCUMENT_TYPES ->
   exists d',
     set_classification ty meta now d = (Ok tt, d') /\
     document_type d' = Some ty /\
     classification_result d' = Some ty /\
     metadata d' !! "classification" = Some (VDict meta) /\
     (forall key, key <> "classification" -> metadata d' !! key = metadata d !! key) /\
     updated_at d' = now /\
     processing_status d' = processing_status d /\
     ocr_result d' = ocr_result d /\
     storage_path d' = storage_path d).
Proof.
  split; intros H.
  - unfold set_classification. apply str_in_false in H. rewrite H. reflexivity.
  - rewrite (set_classification_valid ty meta now d H).
    eexists. split; [reflexivity|]. cbn.
    repeat split; try reflexivity.
    + apply lookup_insert_eq.
    + intros key Hne. apply lookup_insert_ne. congruence.
Qed.





Lemma run_call_identity (d : Document) (c : Call) : identity (run_call d c) = identity d.
Proof. destruct c; crush_call; reflexivity. Qed.

(** X4. No call changes the identifier, the application, the file name,
    type and mime type, the creation time or the creating and updating
    user of a document: [updated_by] in particular stays the creator
    whoever updates the document. *)
Theorem identity_never_changes (d : Document) (cs : list Call) :
  identity (run_calls d cs) = identity d.
Proof.
  revert d. induction cs as [|c cs IH]; intros d; [reflexivity|].
  cbn [run_calls fold_left]. fold (run_calls (run_call d c) cs).
  rewrite IH. apply run_call_identity.
Qed.

(** What [store_ocr_result] leaves behind once its check has passed,
    whether the closing log call raises or not. *)
Lemma store_ocr_result_state (ocr_data : Dict) (stamp now : Time) (d : Document)
    (duration confidence : Value) :
  ocr_data !! "processing_time" = Some duration ->
  ocr_data !! "confidence" = Some confidence ->
  is_Some (ocr_data !! "text") ->
  snd (store_ocr_result ocr_data stamp now d) =
  set_updated_at now
    (set_metadata
       (<["ocr_processing" := ocr_processing_entry stamp duration confidence]>
          (metadata d))
       (set_ocr_result ocr_data d)).
Proof.
  intros Ht Hc [text Hs]. unfold store_ocr_result, required_fields.
  cbn [forallb]. unfold has_key. rewrite Hs, Hc, Ht. cbn [andb negb].
  unfold bind, modify, lift, getitem, ret. rewrite Ht, Hc.
  destruct (py_len _); reflexivity.
Qed.

(** X5. A payload that carries the three keys with a text that has a
    length is stored: the call returns, [ocr_result] is the payload (so
    every key reads back as given), the metadata gain the entry
    [ocr_processing] holding the clock reading and the payload's
    processing time and confidence, the other metadata keys and the
    processing status are as before, and [updated_at] is the second clock
    reading. *)
Theorem store_ocr_result_stores (ocr_data : Dict) (text : string)
    (duration confidence : Value) (stamp now : Time) (d : Document) :
  ocr_data !! "text" = Some (VStr text) ->
  ocr_data !! "processing_time" = Some duration ->
  ocr_data !! "confidence" = Some confidence ->
  exists d',
    store_ocr_result ocr_data stamp now d = (Ok tt, d') /\
    (forall key, ocr_result d' !! key = ocr_data !! key) /\
    metadata d' !! "ocr_processing" =
      Some (ocr_processing_entry stamp duration confidence) /\
    (forall key, key <> "ocr_processing" -> metadata d' !! key = metadata d !! key) /\
    processing_status d' = processing_status d /\
    document_type d' = document_type d /\
    updated_at d' = now.
Proof.
  intros Hs Ht Hc.
  pose proof (store_ocr_result_state ocr_data stamp now d duration confidence
                Ht Hc (ex_intro _ _ Hs)) as Hstate.
  destruct (store_ocr_result_ok ocr_data text confidence duration stamp now d Hs Hc Ht)
    as (d' & Hrun & _).
  exists d'. split; [exact Hrun|].
  rewrite Hrun in Hstate. cbn [snd] in Hstate. subst d'. cbn.
  repeat split; try reflexivity.
  - apply lookup_insert_eq.
  - intros key Hne. apply lookup_insert_ne. congruence.
Qed.

Lemma store_ocr_result_stores_witness :
  exists d',
    store_ocr_result
      (<["text" := VStr "abc"]>
       (<["processing_time" := VNum 2]> (<["confidence" := VNum 97]> ∅)))
      1500%Z 1600%Z sample_document = (Ok tt, d') /\
    updated_at d' = 1600%Z.
Proof.
  destruct (store_ocr_result_stores
              (<["text" := VStr "abc"]>
               (<["processing_time" := VNum 2]> (<["confidence" := VNum 97]> ∅)))
              "abc" (VNum 2) (VNum 97) 1500%Z 1600%Z sample_document)
    as (d' & Hrun & _ & _ & _ & _ & _ & Hup).
  - vm_compute. reflexivity.
  - vm_compute. reflexivity.
  - vm_compute. reflexivity.
  - exists d'. split; [exact Hrun | exact Hup].
Defined.

(** X6. A payload that carries the three keys but whose text has no
    length (a number, or [None]) is stored all the same and the call then
    raises [TypeError]: the closing log call takes [len] of the text after
    [ocr_result], the metadata and [updated_at] have been written. *)
Theorem store_ocr_result_raises_after_storing (ocr_data : Dict) (text : Value)
    (duration confidence : Value) (stamp now : Time) (d : Document) :
  ocr_data !! "text" = Some text ->
  text = VNone \/ (exists q, text = VNum q) ->
  ocr_data !! "processing_time" = Some duration ->
  ocr_data !! "confidence" = Some confidence ->
  exists msg d',
    store_ocr_result ocr_data stamp now d = (Raise (TypeError msg), d') /\
    ocr_result d' = ocr_data /\
    metadata d' !! "ocr_processing" =
      Some (ocr_processing_entry stamp duration confidence) /\
    updated_at d' = now.
Proof.
  intros Hs Hkind Ht Hc.
  pose proof (store_ocr_result_state ocr_data stamp now d duration confidence
                Ht Hc (ex_intro _ _ Hs)) as Hstate.
  assert (Hrun : exists msg,
             fst (store_ocr_result ocr_data stamp now d) = Raise (TypeError msg)).
  { unfold store_ocr_result, required_fields.
    cbn [forallb]. unfold has_key. rewrite Hs, Hc, Ht. cbn [andb negb].
    unfold bind, modify, lift, getitem, ret. rewrite Ht, Hc.
    destruct Hkind as [-> | [q ->]]; cbn; eauto. }
  destruct Hrun as [msg Hrun].
  destruct (store_ocr_result ocr_data stamp now d) as [r d'] eqn:E.
  cbn [fst snd] in *. subst r d'.
  exists msg. eexists. split; [reflexivity|]. cbn.
  repeat split; try reflexivity. apply lookup_insert_eq.
Qed.

Lemma store_ocr_result_raises_after_storing_witness :
  exists msg d',
    store_ocr_result
      (<["text" := VNum 5]>
       (<["processing_time" := VNum 2]> (<["confidence" := VNum 97]> ∅)))
      1500%Z 1600%Z sample_document = (Raise (TypeError msg), d') /\
    updated_at d' = 1600%Z.
Proof.
  destruct (store_ocr_result_raises_after_storing
              (<["text" := VNum 5]>
               (<["processing_time" := VNum 2]> (<["confidence" := VNum 97]> ∅)))
              (VNum 5) (VNum 2) (VNum 97) 1500%Z 1600%Z sample_document)
    as (msg & d' & Hrun & _ & _ & Hup).
  - vm_compute. reflexivity.
  - right. exists 5%Q. reflexivity.
  - vm_compute. reflexivity.
  - vm_compute. reflexivity.
  - exists msg, d'. split; [exact Hrun | exact Hup].
Defined.

(** X7. Two accepted status updates in a row compose: the status and
    [updated_at] are those of the second call, and a metadata key reads
    from the second result data, else from the first, else from the
    metadata the document had. *)
Theorem update_processing_status_twice (d : Document) (s1 s2 : string)
    (r1 r2 : Dict) (t1 t2 : Time) :
  s1 ∈ PROCESSING_STATUSES ->
  s2 ∈ PROCESSING_STATUSES ->
  exists d1 d2,
    update_processing_status s1 r1 t1 d = (Ok tt, d1) /\
    update_processing_status s2 r2 t2 d1 = (Ok tt, d2) /\
    processing_status d2 = s2 /\
    updated_at d2 = t2 /\
    forall key,
      metadata d2 !! key =
      match r2 !! key with
      | Some v => Some v
      | None => match r1 !! key with
                | Some v => Some v
                | None => metadata d !! key
                end
      end.
Proof.
  intros H1 H2. unfold update_processing_status.
  apply str_in_true in H1, H2. rewrite H1, H2. cbn.
  eexists _, _. split; [reflexivity|]. split; [reflexivity|]. cbn.
  repeat split. intros key. rewrite !update_lookup. reflexivity.
Qed.

Lemma update_processing_status_twice_witness :
  exists d1 d2,
    update_processing_status "PROCESSING" (<["a" := VStr "1"]> ∅) 2000%Z
      sample_document = (Ok tt, d1) /\
    update_processing_status "COMPLETED" (<["a" := VStr "2"]> ∅) 3000%Z d1
      = (Ok tt, d2) /\
    processing_status d2 = "COMPLETED" /\
    metadata d2 !! "a" = Some (VStr "2").
Proof.
  destruct (update_processing_status_twice sample_document "PROCESSING" "COMPLETED"
              (<["a" := VStr "1"]> ∅) (<["a" := VStr "2"]> ∅) 2000%Z 3000%Z)
    as (d1 & d2 & Hr1 & Hr2 & Hst & _ & Hmeta).
  - repeat constructor.
  - repeat constructor.
  - exists d1, d2. repeat split; try assumption.
    rewrite Hmeta. vm_compute. reflexivity.
Defined.



(** A call leaves [updated_at] alone or sets it to its clock reading. *)
Lemma run_call_updated_at (d : Document) (c : Call) :
  updated_at (run_call d c) = updated_at d \/
  clock_of c = Some (updated_at (run_call d c)).
Proof.
  destruct c; crush_call; cbn; auto.
Qed.

Lemma run_calls_updated_at_ge (cs : list Call) :
  forall d t,
    (updated_at d <= t)%Z -> clock_monotone t cs ->
    (updated_at d <= updated_at (run_calls d cs))%Z.
Proof.
  induction cs as [|c cs IH]; intros d t Hd Hm; [cbn; lia|].
  cbn [run_calls fold_left]. fold (run_calls (run_call d c) cs).
  cbn [clock_monotone] in Hm.
  destruct (run_call_updated_at d c) as [Heq | Hset].
  - destruct (clock_of c) as [now|].
    + destruct Hm as [Hle Hm]. rewrite <- Heq at 1.
      apply (IH _ now); [rewrite Heq; lia | exact Hm].
    + rewrite <- Heq at 1. apply (IH _ t); [rewrite Heq; exact Hd | exact Hm].
  - rewrite Hset in Hm. destruct Hm as [Hle Hm].
    transitivity (updated_at (run_call d c)); [lia|].
    apply (IH _ (updated_at (run_call d c))); [lia | exact Hm].
Qed.

(** X9. When the clock readings handed to the calls never go back,
    [updated_at] never goes back either: at every point of a run it is at
    most what it is at the end. *)
Theorem updated_at_monotone (d : Document) (cs1 cs2 : list Call) :
  clock_monotone (updated_at d) (cs1 ++ cs2) ->
  (updated_at d <= updated_at (run_calls d cs1) <= updated_at (run_calls d (cs1 ++ cs2)))%Z.
Proof.
  assert (Hgen : forall cs1 d t,
             (updated_at d <= t)%Z -> clock_monotone t (cs1 ++ cs2) ->
             (updated_at d <= updated_at (run_calls d cs1)
              <= updated_at (run_calls d (cs1 ++ cs2)))%Z).
  { clear. induction cs1 as [|c cs1 IH]; intros d t Hd Hm.
    - cbn [app run_calls fold_left]. split; [lia|].
      apply (run_calls_updated_at_ge cs2 d t Hd Hm).
    - cbn [app run_calls fold_left].
      fold (run_calls (run_call d c) cs1). fold (run_calls (run_call d c) (cs1 ++ cs2)).
      cbn [app clock_monotone] in Hm.
      destruct (run_call_updated_at d c) as [Heq | Hset].
      + destruct (clock_of c) as [now|].
        * destruct Hm as [Hle Hm].
          destruct (IH (run_call d c) now) as [H1 H2]; [rewrite Heq; lia | exact Hm |].
          rewrite Heq in H1. split; [exact H1 | exact H2].
        * destruct (IH (run_call d c) t) as [H1 H2]; [rewrite Heq; exact Hd | exact Hm |].
          rewrite Heq in H1. split; [exact H1 | exact H2].
      + rewrite Hset in Hm. destruct Hm as [Hle Hm].
        destruct (IH (run_call d c) (updated_at (run_call d c))) as [H1 H2];
          [lia | exact Hm |].
        split; [lia | exact H2]. }
  intros Hm. apply (Hgen cs1 d (updated_at d)); [lia | exact Hm].
Qed.

Lemma updated_at_monotone_witness :
  (updated_at sample_document
   <= updated_at (run_calls sample_document [CallUpdateStatus "PROCESSING" ∅ 2000%Z])
   <= updated_at (run_calls sample_document
                    ([CallUpdateStatus "PROCESSING" ∅ 2000%Z]
                     ++ [CallUpdateStatus "COMPLETED" ∅ 3000%Z])))%Z.
Proof.
  apply (updated_at_monotone sample_document
           [CallUpdateStatus "PROCESSING" ∅ 2000%Z]
           [CallUpdateStatus "COMPLETED" ∅ 3000%Z]).
  vm_compute. repeat split; discriminate.
Defined.

End DocumentRuns.

(** ** Text normalisation *)

Section TextNormalisation.

Lemma string_all_map (p : ascii -> bool) (f : ascii -> ascii) (s : string) :
  string_all p (string_map f s) = string_all (fun c => p (f c)) s.
Proof. induction s as [|c s IH]; cbn; [reflexivity | rewrite IH; reflexivity]. Qed.

Lemma string_all_impl (p q : ascii -> bool) (s : string) :
  (forall c, p c = true -> q c = true) ->
  string_all p s = true -> string_all q s = true.
Proof.
  intros Hpq. induction s as [|c s IH]; cbn; [reflexivity|].
  rewrite !andb_true_iff. intros [Hc Hs]. auto.
Qed.

Lemma string_all_append (p : ascii -> bool) (s t : string) :
  string_all p (String.append s t) = string_all p s && string_all p t.
Proof.
  induction s as [|c s IH]; [reflexivity|].
  change (String.append (String c s) t) with (String c (String.append s t)).
  cbn [string_all]. rewrite IH, andb_assoc. reflexivity.
Qed.

Lemma string_all_filter (p q : ascii -> bool) (s : string) :
  string_all p s = true ->
  string_all (fun c => p c && q c) (string_filter q s) = true.
Proof.
  induction s as [|c s IH]; cbn; [reflexivity|].
  rewrite andb_true_iff. intros [Hc Hs].
  destruct (q c) eqn:Hq; cbn; [rewrite Hc, Hq, IH by exact Hs; reflexivity | auto].
Qed.

Lemma string_all_join (p : ascii -> bool) (sep : string) (ws : list string) :
  string_all p sep = true ->
  Forall (fun w => string_all p w = true) ws ->
  string_all p (join sep ws) = true.
Proof.
  intros Hsep. induction 1 as [|w ws Hw Hws IH]; [reflexivity|].
  destruct ws as [|w' ws']; [exact Hw|].
  change (join sep (w :: w' :: ws'))
    with (String.append w (String.append sep (join sep (w' :: ws')))).
  rewrite !string_all_append, Hw, Hsep, IH. reflexivity.
Qed.

(** The words [split] returns hold no whitespace, and only characters of
    the text. *)
Lemma split_ws_aux_all (p : ascii -> bool) (s : string) :
  string_all p s = true ->
  string_all (fun c => p c && negb (isspace c)) (fst (split_ws_aux s)) = true /\
  Forall (fun w => string_all (fun c => p c && negb (isspace c)) w = true)
         (snd (split_ws_aux s)).
Proof.
  induction s as [|c s IH]; cbn [string_all split_ws_aux].
  - intros _. split; [reflexivity | constructor].
  - rewrite andb_true_iff. intros [Hc Hs].
    destruct (IH Hs) as [Hw Hws].
    destruct (split_ws_aux s) as [w ws]. cbn [fst snd] in *.
    destruct (isspace c) eqn:Hsp; cbn [fst snd].
    + split; [reflexivity|].
      destruct (is_empty w); [exact Hws | constructor; assumption].
    + split; [|exact Hws]. cbn [string_all]. rewrite Hc, Hsp, Hw. reflexivity.
Qed.

Lemma split_ws_all (p : ascii -> bool) (s : string) :
  string_all p s = true ->
  Forall (fun w => string_all (fun c => p c && negb (isspace c)) w = true) (split_ws s).
Proof.
  intros H. destruct (split_ws_aux_all p s H) as [Hw Hws].
  unfold split_ws. destruct (split_ws_aux s) as [w ws]. cbn [fst snd] in *.
  destruct (is_empty w); [exact Hws | constructor; assumption].
Qed.

Lemma lower_char_not_upper (c : ascii) : isupper (lower_char c) = false.
Proof. destruct c as [[] [] [] [] [] [] [] []]; reflexivity. Qed.

Lemma lower_upper_char (c : ascii) : lower_char (upper_char c) = lower_char c.
Proof. destruct c as [[] [] [] [] [] [] [] []]; reflexivity. Qed.

Lemma lower_lower_char (c : ascii) : lower_char (lower_char c) = lower_char c.
Proof. destruct c as [[] [] [] [] [] [] [] []]; reflexivity. Qed.

Lemma upper_upper_char (c : ascii) : upper_char (upper_char c) = upper_char c.
Proof. destruct c as [[] [] [] [] [] [] [] []]; reflexivity. Qed.

Lemma upper_lower_char (c : ascii) : upper_char (lower_char c) = upper_char c.
Proof. destruct c as [[] [] [] [] [] [] [] []]; reflexivity. Qed.

Lemma string_map_map (f g : ascii -> ascii) (s : string) :
  string_map f (string_map g s) = string_map (fun c => f (g c)) s.
Proof. induction s as [|c s IH]; cbn; [reflexivity | rewrite IH; reflexivity]. Qed.

Lemma string_map_ext (f g : ascii -> ascii) (s : string) :
  (forall c, f c = g c) -> string_map f s = string_map g s.
Proof.
  intros H. induction s as [|c s IH]; cbn; [reflexivity | rewrite H, IH; reflexivity].
Qed.

(** The last step of the normalisation keeps a lowercase letter, a digit
    or a blank, and nothing else. *)
Lemma kept_char (c : ascii) :
  negb (isupper c) && (negb (isspace c) || Ascii.eqb c " ")
  && (isalnum c || isspace c) = true ->
  islower c || isdigit c || Ascii.eqb c " " = true.
Proof.
  destruct c as [[] [] [] [] [] [] [] []]; vm_compute; intros H;
    first [reflexivity | exact H].
Qed.

(** X10. The text [preprocess_text] returns consists of lowercase
    letters, digits and blanks only: no uppercase letter, no punctuation,
    no tab and no newline survives. *)
Theorem preprocess_text_alphabet (text : string) :
  string_all (fun c => islower c || isdigit c || Ascii.eqb c " ")
             (preprocess_text text) = true.
Proof.
  unfold preprocess_text.
  set (joined := join " " (split_ws (lower text))).
  assert (Hj : string_all (fun c => negb (isupper c)
                                    && (negb (isspace c) || Ascii.eqb c " "))
                          joined = true).
  { apply string_all_join; [reflexivity|].
    assert (Hl : string_all (fun c => negb (isupper c)) (lower text) = true).
    { unfold lower. rewrite string_all_map. clear.
      induction text as [|c s IH]; cbn; [reflexivity|].
      rewrite lower_char_not_upper, IH. reflexivity. }
    eapply Forall_impl; [apply (split_ws_all _ _ Hl)|].
    intros w Hw. cbn beta in Hw. revert Hw. apply string_all_impl.
    intros c Hc. apply andb_true_iff in Hc as [Hu Hs]. rewrite Hu, Hs. reflexivity. }
  assert (Hr : string_all (fun c => negb (isupper c)
                                    && (negb (isspace c) || Ascii.eqb c " "))
                          (replace_char TAB " " (replace_char LF " " joined)) = true).
  { unfold replace_char. rewrite !string_all_map.
    revert Hj. apply string_all_impl. intros c Hc.
    destruct (Ascii.eqb c LF) eqn:E1.
    - reflexivity.
    - destruct (Ascii.eqb c TAB) eqn:E2; [reflexivity | exact Hc]. }
  pose proof (string_all_filter _ (fun char => isalnum char || isspace char) _ Hr) as Hf.
  revert Hf. apply string_all_impl. intros c. apply kept_char.
Qed.

(** X11. [preprocess_text] does not see the case of its input: the text
    in uppercase, and the text in lowercase, normalise to the same
    result as the text itself. *)
Theorem preprocess_text_ignores_case (text : string) :
  preprocess_text (upper text) = preprocess_text text /\
  preprocess_text (lower text) = preprocess_text text.
Proof.
  unfold preprocess_text, lower, upper. split.
  - rewrite string_map_map.
    rewrite (string_map_ext _ lower_char text lower_upper_char). reflexivity.
  - rewrite string_map_map.
    rewrite (string_map_ext _ lower_char text lower_lower_char). reflexivity.
Qed.

End TextNormalisation.

(** ** The classifier beyond its threshold *)

Section ClassifierRuns.
Local Open Scope Q_scope.

Variable s3_download : Document -> Res unit.
Variable magic_from_file : Document -> string.
Variable pdf_page_texts : Document -> Res (list string).
Variable predict_proba : string -> Res (list (list Q)).

Local Abbreviation classify :=
  (classify_document s3_download magic_from_file pdf_page_texts predict_proba).
Local Abbreviation extract :=
  (extract_text s3_download magic_from_file pdf_page_texts).

(** X12. [extract_text] returns a text only for a file that was
    downloaded, that is detected as [application/pdf] and whose pages the
    PDF reader could read; the text is then the page texts joined by
    single blanks.  A downloaded file detected as an image raises
    [ValueError]: image documents have no text extraction. *)
Theorem extract_text_only_pdf (document : Document) :
  (forall text,
     extract document = Ok text <->
     s3_download document = Ok tt /\
     magic_from_file document = "application/pdf" /\
     exists pages, pdf_page_texts document = Ok pages /\ text = join " " pages)
  /\
  (s3_download document = Ok tt ->
   startswith "image/" (magic_from_file document) = true ->
   extract document =
   Raise (ValueError "Image-based document extraction not implemented")).
Proof.
  split.
  - intros text. unfold extract_text. split.
    + intros H. apply res_bind_ok in H as ([] & Hd & H).
      destruct (String.eqb (magic_from_file document) "application/pdf") eqn:E.
      * apply String.eqb_eq in E.
        apply res_bind_ok in H as (pages & Hp & H). inversion H; subst.
        repeat split; eauto.
      * destruct (startswith "image/" (magic_from_file document)); discriminate.
    + intros (Hd & Hm & pages & Hp & ->).
      rewrite Hd. cbn [res_bind]. rewrite Hm. cbn. rewrite Hp. reflexivity.
  - intros Hd Hi. unfold extract_text. rewrite Hd. cbn [res_bind].
    destruct (String.eqb (magic_from_file document) "application/pdf") eqn:E.
    + apply String.eqb_eq in E. rewrite E in Hi. discriminate.
    + rewrite Hi. reflexivity.
Qed.

(** X13. A call of [classify_document] that raises leaves the document
    exactly as it was: every failure comes before the only write, and the
    write itself cannot fail on a label taken from the label list. *)
Theorem classify_document_failure_keeps_document (now : Time) (d : Document) (e : Exn) :
  fst (classify now d) = Raise e ->
  snd (classify now d) = d.
Proof.
  unfold classify_document, bind, get, lift, raise, ret.
  destruct (extract d) as [text|]; [|reflexivity].
  destruct (is_empty text); [reflexivity|].
  destruct (predict_proba (preprocess_text text)) as [probs|]; [|reflexivity].
  destruct (np_argmax probs) as [idx|]; [|reflexivity].
  destruct (list_getitem probs 0) as [row|]; [|reflexivity].
  destruct (list_getitem row idx) as [conf|]; [|reflexivity].
  destruct (list_getitem DOCUMENT_TYPES idx) as [label|] eqn:El; [|reflexivity].
  apply list_getitem_ok in El.
  destruct (Qgeb conf CONFIDENCE_THRESHOLD).
  - rewrite set_classification_valid by (apply list_elem_of_lookup; eauto).
    cbn. discriminate.
  - cbn. discriminate.
Qed.

(** Among equal largest entries [numpy.argmax] takes the first. *)
Lemma argmax_from_first (full l : list Q) :
  forall (best_i : nat) (best : Q) (i : nat),
    drop i full = l ->
    full !! best_i = Some best ->
    (best_i < i)%nat ->
    (forall k x, (k < best_i)%nat -> full !! k = Some x -> x < best) ->
    (forall k x, (best_i <= k < i)%nat -> full !! k = Some x -> x <= best) ->
    exists m,
      full !! argmax_from best_i best i l = Some m /\
      forall k x, (k < argmax_from best_i best i l)%nat -> full !! k = Some x -> x < m.
Proof.
  induction l as [|x l IH]; intros best_i best i Hdrop Hbest Hlt Hfirst Hmid.
  - exists best. split; [exact Hbest | exact Hfirst].
  - assert (Hi : full !! i = Some x).
    { rewrite <- (Nat.add_0_r i), <- lookup_drop, Hdrop. reflexivity. }
    assert (Hdrop' : drop (S i) full = l).
    { pose proof (drop_S full x i Hi) as Hd. rewrite Hdrop in Hd.
      inversion Hd. reflexivity. }
    cbn [argmax_from]. destruct (Qltb best x) eqn:E.
    + apply Qltb_true in E. apply (IH i x (S i) Hdrop' Hi); [lia | |].
      * intros k y Hk Hy.
        destruct (Nat.lt_ge_cases k best_i) as [Hkb | Hkb].
        -- apply Qlt_trans with best; [apply (Hfirst k y Hkb Hy) | exact E].
        -- apply Qle_lt_trans with best; [apply (Hmid k y); [lia | exact Hy] | exact E].
      * intros k y Hk Hy. assert (k = i) as -> by lia.
        rewrite Hi in Hy. inversion Hy; subst. apply Qle_refl.
    + apply Qltb_false in E.
      apply (IH best_i best (S i) Hdrop' Hbest); [lia | exact Hfirst |].
      intros k y Hk Hy. destruct (Nat.eq_dec k i) as [-> | Hne].
      * rewrite Hi in Hy. inversion Hy; subst. exact E.
      * apply (Hmid k y); [lia | exact Hy].
Qed.

Lemma np_argmax_row_first (row : list Q) (idx : nat) :
  np_argmax [row] = Ok idx ->
  exists m, row !! idx = Some m /\
            forall k x, (k < idx)%nat -> row !! k = Some x -> x < m.
Proof.
  unfold np_argmax. cbn [concat]. rewrite app_nil_r.
  destruct row as [|x l] eqn:Hrow; [discriminate|].
  intros H. inversion H as [Hidx].
  apply (argmax_from_first (x :: l) l 0 x 1); [reflexivity | reflexivity | lia | |].
  - intros k y Hk. lia.
  - intros k y Hk Hy. assert (k = 0%nat) as -> by lia.
    cbn in Hy. inversion Hy; subst. apply Qle_refl.
Qed.

(** X14. With a model that returns one probability row, the confidence
    [classify_document] returns is a largest entry of that row, the label
    is the one at its position, and among equal largest entries the first
    position is taken: every earlier entry is strictly smaller. *)
Theorem classify_document_largest_probability (now : Time) (d d' : Document)
    (label : string) (conf : Q) :
  (forall text probs, predict_proba text = Ok probs -> exists row, probs = [row]) ->
  classify now d = (Ok (label, conf), d') ->
  exists (row : list Q) (idx : nat),
    row !! idx = Some conf /\
    DOCUMENT_TYPES !! idx = Some label /\
    (forall p, p ∈ row -> p <= conf) /\
    (forall k p, (k < idx)%nat -> row !! k = Some p -> p < conf).
Proof.
  intros Hone H.
  apply classify_document_ok in H
    as (text & probs & idx & row & Hx & Hne & Hp & Ha & Hr & Hc & Hl).
  destruct (Hone _ _ Hp) as [row' ->]. cbn in Hr. inversion Hr; subst row'.
  destruct (np_argmax_row row idx Ha) as (m & Hm & Hmax).
  destruct (np_argmax_row_first row idx Ha) as (m' & Hm' & Hfirst).
  rewrite Hc in Hm, Hm'. inversion Hm; inversion Hm'; subst m m'.
  exists row, idx. repeat split; assumption.
Qed.

(** X15. When the largest probability sits at a position beyond the five
    labels, as with a model trained on more classes than the label list
    has, [classify_document] raises [IndexError] and the document is as
    before. *)
Theorem classify_document_index_out_of_range (now : Time) (d : Document)
    (text : string) (probs : list (list Q)) (idx : nat) (row : list Q) (conf : Q) :
  extract d = Ok text ->
  text <> EmptyString ->
  predict_proba (preprocess_text text) = Ok probs ->
  np_argmax probs = Ok idx ->
  probs !! 0%nat = Some row ->
  row !! idx = Some conf ->
  (length DOCUMENT_TYPES <= idx)%nat ->
  classify now d = (Raise (IndexError "index out of range"), d).
Proof.
  intros Hx Hne Hp Ha Hr Hc Hlen.
  unfold classify_document, bind, get, lift.
  rewrite Hx. apply is_empty_false in Hne. rewrite Hne, Hp, Ha.
  apply list_getitem_ok in Hr, Hc. rewrite Hr, Hc.
  unfold list_getitem. rewrite (lookup_ge_None_2 DOCUMENT_TYPES idx Hlen).
  reflexivity.
Qed.

End ClassifierRuns.

Section ClassifierWorkedInputs.
Local Open Scope Q_scope.

Lemma classify_document_largest_probability_witness :
  exists (row : list Q) (idx : nat),
    row !! idx = Some 0.75 /\
    DOCUMENT_TYPES !! idx = Some "BANK_STATEMENT" /\
    (forall p, p ∈ row -> p <= 0.75) /\
    (forall k p, (k < idx)%nat -> row !! k = Some p -> p < 0.75).
Proof.
  apply (classify_document_largest_probability
           (fun _ => Ok tt) (fun _ => "application/pdf")
           (fun _ => Ok ["Test document content"]) (fun _ => Ok sample_probs)
           1700%Z sample_document sample_document "BANK_STATEMENT" 0.75).
  - intros text probs H. exists [0; 0.75; 0; 0; 0].
    unfold sample_probs in H. inversion H. reflexivity.
  - vm_compute. reflexivity.
Defined.

(** A document whose file is detected as an image. *)
Lemma classify_document_failure_keeps_document_witness :
  snd (classify_document (fun _ => Ok tt) (fun _ => "image/png")
         (fun _ => Ok []) (fun _ => Ok sample_probs) 1700%Z sample_document)
  = sample_document.
Proof.
  apply (classify_document_failure_keeps_document
           (fun _ => Ok tt) (fun _ => "image/png")
           (fun _ => Ok []) (fun _ => Ok sample_probs) 1700%Z sample_document
           (ValueError "Image-based document extraction not implemented")).
  vm_compute. reflexivity.
Defined.

(** A model with six classes that prefers the sixth. *)
Lemma classify_document_index_out_of_range_witness :
  classify_document (fun _ => Ok tt) (fun _ => "application/pdf")
    (fun _ => Ok ["Test document content"])
    (fun _ => Ok [[0; 0.1; 0; 0; 0; 0.9]]) 1700%Z sample_document
  = (Raise (IndexError "index out of range"), sample_document).
Proof.
  apply (classify_document_index_out_of_range
           (fun _ => Ok tt) (fun _ => "application/pdf")
           (fun _ => Ok ["Test document content"])
           (fun _ => Ok [[0; 0.1; 0; 0; 0; 0.9]]) 1700%Z sample_document
           "Test document content" [[0; 0.1; 0; 0; 0; 0.9]] 5%nat
           [0; 0.1; 0; 0; 0; 0.9] 0.9).
  - vm_compute. reflexivity.
  - discriminate.
  - reflexivity.
  - vm_compute. reflexivity.
  - reflexivity.
  - reflexivity.
  - cbn. lia.
Defined.

End ClassifierWorkedInputs.

(** ** What a pattern match returns *)

Section PatternMatching.

#[local] Arguments String.append _ _ : simpl nomatch.

Lemma str_append_nil_r (s : string) : String.append s EmptyString = s.
Proof. induction s as [|c s IH]; simpl; [reflexivity | rewrite IH; reflexivity]. Qed.

Lemma str_append_assoc (s t u : string) :
  String.append (String.append s t) u = String.append s (String.append t u).
Proof. induction s as [|c s IH]; simpl; [reflexivity | rewrite IH; reflexivity]. Qed.

Lemma str_length_append (s t : string) :
  String.length (String.append s t) = (String.length s + String.length t)%nat.
Proof. induction s as [|c s IH]; simpl; [reflexivity | rewrite IH; reflexivity]. Qed.

(** The text between two places of a string is recovered from the
    lengths of what follows them. *)
Lemma substring_prefix (mid s : string) :
  substring 0 (String.length (String.append mid s) - String.length s)
            (String.append mid s) = mid.
Proof.
  induction mid as [|c mid IH].
  - cbn [String.append]. rewrite Nat.sub_diag. destruct s; reflexivity.
  - change (String.append (String c mid) s) with (String c (String.append mid s)).
    cbn [String.length].
    assert (Hle : (String.length s <= String.length (String.append mid s))%nat)
      by (rewrite str_length_append; lia).
    rewrite Nat.sub_succ_l by exact Hle.
    cbn [substring]. rewrite IH. reflexivity.
Qed.

Lemma substring_of_refl (s : string) : substring_of s s.
Proof. exists EmptyString, EmptyString. cbn. rewrite str_append_nil_r. reflexivity. Qed.

Lemma substring_of_trans (a b c : string) :
  substring_of a b -> substring_of b c -> substring_of a c.
Proof.
  intros (p1 & q1 & ->) (p2 & q2 & ->).
  exists (String.append p2 p1), (String.append q1 q2).
  rewrite !str_append_assoc. reflexivity.
Qed.

(** A greedy repetition that lets the rest of the pattern match took a
    run of characters of its class, within its bounds, and the rest of
    the pattern matched what follows the run. *)
Lemma greedy_sound {R} (a : Atom) (k : string -> option R) (s : string) :
  forall (lo : nat) (hi : option nat) (r : R),
    greedy a lo hi k s = Some r ->
    exists run rest,
      s = String.append run rest /\
      string_all (atom_matches a) run = true /\
      (lo <= String.length run)%nat /\
      within hi (String.length run) /\
      k rest = Some r.
Proof.
  induction s as [|c s IH]; intros lo hi r H.
  - cbn in H. destruct lo; [|discriminate].
    exists EmptyString, EmptyString. cbn.
    repeat split; try assumption; try lia. destruct hi; cbn; lia.
  - cbn [greedy] in H.
    assert (Hstop : match lo with O => k (String c s) | S _ => None end = Some r ->
                    exists run rest,
                      String c s = String.append run rest /\
                      string_all (atom_matches a) run = true /\
                      (lo <= String.length run)%nat /\
                      within hi (String.length run) /\
                      k rest = Some r).
    { intros Hk. destruct lo; [|discriminate].
      exists EmptyString, (String c s). cbn.
      repeat split; try assumption; try lia. destruct hi; cbn; lia. }
    destruct (atom_matches a c && can_take hi) eqn:E; [|exact (Hstop H)].
    destruct (greedy a (Nat.pred lo) (option_map Nat.pred hi) k s) as [r'|] eqn:G;
      [|exact (Hstop H)].
    inversion H; subst r'.
    apply andb_true_iff in E as [Hc Htake].
    apply IH in G as (run & rest & -> & Hall & Hlo & Hhi & Hk).
    exists (String c run), rest. cbn [String.append string_all String.length].
    rewrite Hc, Hall. repeat split; try assumption; try lia.
    destruct hi as [[|h]|]; cbn in *; try discriminate; lia.
Qed.

(** A sequence of repetitions at the head of a pattern consumes a text
    that matches it, run by run. *)
Lemma match_here_reps (reps tail : list Node) :
  Forall (fun n => exists a lo hi, n = Rep a lo hi) reps ->
  forall opened group1 s r,
    match_here (reps ++ tail) opened group1 s = Some r ->
    exists mid rest,
      s = String.append mid rest /\
      reps_match reps mid /\
      match_here tail opened group1 rest = Some r.
Proof.
  induction 1 as [|n reps (a & lo & hi & ->) _ IH]; intros opened group1 s r H.
  - exists EmptyString, s. cbn. repeat split; [constructor | exact H].
  - cbn [app match_here] in H.
    apply greedy_sound in H as (run & rest & -> & Hall & Hlo & Hhi & Hk).
    apply IH in Hk as (mid & rest' & -> & Hm & Ht).
    exists (String.append run mid), rest'.
    rewrite str_append_assoc. repeat split; [|exact Ht].
    constructor; assumption.
Qed.

(** Whatever the pattern, the text of the group is cut out of the text
    that was searched. *)
Lemma match_here_substring (orig : string) (p : list Node) :
  forall opened group1 s g,
    match_here p opened group1 s = Some (Some g) ->
    (exists pre, orig = String.append pre s) ->
    (forall s0, opened = Some s0 ->
                (exists pre, orig = String.append pre s0) /\
                (exists mid, s0 = String.append mid s)) ->
    (forall g1, group1 = Some g1 -> substring_of g1 orig) ->
    substring_of g orig.
Proof.
  induction p as [|n p IH]; intros opened group1 s g H Hs Ho Hg.
  - cbn in H. inversion H; subst. apply Hg. reflexivity.
  - destruct n as [a lo hi| |]; cbn [match_here] in H.
    + apply greedy_sound in H as (run & rest & -> & _ & _ & _ & Hk).
      apply (IH _ _ _ _ Hk).
      * destruct Hs as [pre ->]. exists (String.append pre run).
        rewrite str_append_assoc. reflexivity.
      * intros s0 E. destruct (Ho s0 E) as [Hpre [mid ->]].
        split; [exact Hpre|]. exists (String.append mid run).
        rewrite str_append_assoc. reflexivity.
      * exact Hg.
    + apply (IH _ _ _ _ H); [exact Hs | | exact Hg].
      intros s0 E. inversion E; subst s0. split; [exact Hs|].
      exists EmptyString. reflexivity.
    + apply (IH _ _ _ _ H); [exact Hs | exact Ho |].
      intros g1 E. unfold captured in E.
      destruct opened as [s0|]; [|discriminate].
      destruct (Ho s0 eq_refl) as [[pre ->] [mid ->]].
      rewrite substring_prefix in E. inversion E; subst g1.
      exists pre, s. reflexivity.
Qed.

Lemma re_search_substring (p : list Node) (s g : string) :
  re_search p s = Some g -> substring_of g s.
Proof.
  induction s as [|c s IH]; cbn [re_search].
  - destruct (match_here p None None EmptyString) as [[g'|]|] eqn:E; try discriminate.
    intros H. inversion H; subst g'.
    apply (match_here_substring EmptyString p None None EmptyString g E).
    + exists EmptyString. reflexivity.
    + discriminate.
    + discriminate.
  - destruct (match_here p None None (String c s)) as [[g'|]|] eqn:E; try discriminate.
    + intros H. inversion H; subst g'.
      apply (match_here_substring (String c s) p None None (String c s) g E).
      * exists EmptyString. reflexivity.
      * discriminate.
      * discriminate.
    + intros H. apply IH in H as (pre & post & ->).
      exists (String c pre), post. reflexivity.
Qed.

(** For a pattern made of repetitions, a group of repetitions and nothing
    after it, the text of the group matches the group. *)
Lemma re_search_group (pre body : list Node) (s g : string) :
  Forall (fun n => exists a lo hi, n = Rep a lo hi) pre ->
  Forall (fun n => exists a lo hi, n = Rep a lo hi) body ->
  re_search (pre ++ GroupOpen :: body ++ [GroupClose]) s = Some g ->
  reps_match body g.
Proof.
  intros Hpre Hbody.
  assert (Hhere : forall s g,
             match_here (pre ++ GroupOpen :: body ++ [GroupClose]) None None s
               = Some (Some g) -> reps_match body g).
  { clear s g. intros s g H.
    apply (match_here_reps pre _ Hpre) in H as (mid & rest & -> & _ & H).
    cbn [match_here] in H.
    apply (match_here_reps body _ Hbody) in H as (mid2 & rest2 & -> & Hm & H).
    cbn [match_here captured] in H. rewrite substring_prefix in H.
    inversion H; subst. exact Hm. }
  induction s as [|c s IH]; cbn [re_search].
  - destruct (match_here _ None None EmptyString) as [[g'|]|] eqn:E; try discriminate.
    intros H. inversion H; subst g'. apply (Hhere _ _ E).
  - destruct (match_here _ None None (String c s)) as [[g'|]|] eqn:E; try discriminate.
    + intros H. inversion H; subst g'. apply (Hhere _ _ E).
    + exact IH.
Qed.

(** [strip] cuts a piece out of its argument, and a second [strip] finds
    nothing left to remove. *)
Lemma lstrip_suffix (s : string) : exists pre, s = String.append pre (lstrip s).
Proof.
  induction s as [|c s [pre IH]]; [exists EmptyString; reflexivity|].
  cbn [lstrip]. destruct (isspace c).
  - exists (String c pre). cbn. rewrite <- IH. reflexivity.
  - exists EmptyString. reflexivity.
Qed.

Lemma rstrip_prefix (s : string) : exists post, s = String.append (rstrip s) post.
Proof.
  induction s as [|c s [post IH]]; [exists EmptyString; reflexivity|].
  cbn [rstrip]. destruct (rstrip s) as [|d r] eqn:E.
  - destruct (isspace c).
    + exists (String c s). reflexivity.
    + exists post. cbn in *. rewrite <- IH. reflexivity.
  - exists post. cbn in *. rewrite <- IH. reflexivity.
Qed.

Lemma strip_substring (s : string) : substring_of (strip s) s.
Proof.
  unfold strip. destruct (lstrip_suffix s) as [pre Hpre].
  destruct (rstrip_prefix (lstrip s)) as [post Hpost].
  exists pre, post. rewrite <- Hpost. exact Hpre.
Qed.

Lemma rstrip_idem (s : string) : rstrip (rstrip s) = rstrip s.
Proof.
  induction s as [|c s IH]; [reflexivity|].
  cbn [rstrip]. destruct (rstrip s) as [|d r] eqn:E.
  - destruct (isspace c) eqn:Hc; [reflexivity|]. cbn. rewrite Hc. reflexivity.
  - cbn [rstrip]. cbn [rstrip] in IH. rewrite IH. reflexivity.
Qed.

Lemma lstrip_head_solid (s : string) : head_solid (lstrip s).
Proof.
  induction s as [|c s IH]; [exact I|].
  cbn [lstrip]. destruct (isspace c) eqn:E; [exact IH | exact E].
Qed.

Lemma rstrip_head_solid (s : string) : head_solid s -> head_solid (rstrip s).
Proof.
  destruct s as [|c s]; [intros _; exact I|].
  cbn [head_solid rstrip]. intros Hc.
  destruct (rstrip s); [rewrite Hc|]; exact Hc.
Qed.

Lemma lstrip_fixed (s : string) : head_solid s -> lstrip s = s.
Proof. destruct s as [|c s]; cbn; [reflexivity | intros ->; reflexivity]. Qed.

Lemma strip_idem (s : string) : strip (strip s) = strip s.
Proof.
  unfold strip.
  rewrite (lstrip_fixed (rstrip (lstrip s)))
    by apply rstrip_head_solid, lstrip_head_solid.
  apply rstrip_idem.
Qed.

Lemma rstrip_solid (s : string) :
  string_all (fun c => negb (isspace c)) s = true -> rstrip s = s.
Proof.
  induction s as [|c s IH]; [reflexivity|].
  cbn [string_all rstrip]. rewrite andb_true_iff, negb_true_iff.
  intros [Hc Hs]. rewrite (IH Hs).
  destruct s; [rewrite Hc|]; reflexivity.
Qed.

Lemma strip_solid (s : string) :
  string_all (fun c => negb (isspace c)) s = true -> strip s = s.
Proof.
  intros H. unfold strip.
  assert (Hl : lstrip s = s).
  { destruct s as [|c s]; [reflexivity|].
    cbn [string_all] in H. apply andb_true_iff in H as [Hc _].
    apply negb_true_iff in Hc. cbn. rewrite Hc. reflexivity. }
  rewrite Hl. apply rstrip_solid, H.
Qed.

End PatternMatching.

(** ** Fields and where they come from *)

Section FieldProvenance.
Local Open Scope Q_scope.

#[local] Arguments String.append _ _ : simpl nomatch.

(** X16. [extract_fields] knows two document types only.  With a result
    that has a text, every other type, and so each of VOIDED_CHECK,
    BUSINESS_LICENSE and TAX_RETURN that the classifier can return, makes
    it raise [ValueError]; a result without the key [text] raises
    [KeyError] before the type is looked at. *)
Theorem extract_fields_unsupported_type (document_type : string) (ocr_results : Dict) :
  (ocr_results !! "text" = None ->
   extract_fields document_type ocr_results = Raise (KeyError "text"))
  /\
  (is_Some (ocr_results !! "text") ->
   document_type <> "ISO_APPLICATION" -> document_type <> "BANK_STATEMENT" ->
   extract_fields document_type ocr_results =
   Raise (ValueError (String.append "Unsupported document type: " document_type)))
  /\
  Forall (fun ty => ty ∈ DOCUMENT_TYPES /\ assoc ty field_patterns = None)
         ["VOIDED_CHECK"; "BUSINESS_LICENSE"; "TAX_RETURN"].
Proof.
  split; [|split].
  - intros H. unfold extract_fields, getitem. rewrite H. reflexivity.
  - intros [v Hv] H1 H2. unfold extract_fields, getitem. rewrite Hv.
    cbn [res_bind]. unfold field_patterns. cbn [assoc].
    apply String.eqb_neq in H1, H2. rewrite H1, H2. reflexivity.
  - repeat constructor.
Qed.

(** X17. The names [extract_fields] emits belong to the schema of the
    document type: business_name, ein, address, phone and email for
    ISO_APPLICATION; account_number, balance and period for
    BANK_STATEMENT. *)
Theorem extract_fields_schema (document_type : string) (ocr_results fields : Dict)
    (name : string) :
  extract_fields document_type ocr_results = Ok fields ->
  is_Some (fields !! name) ->
  (document_type = "ISO_APPLICATION" /\
   In name ["business_name"; "ein"; "address"; "phone"; "email"])
  \/
  (document_type = "BANK_STATEMENT" /\
   In name ["account_number"; "balance"; "period"]).
Proof.
  intros H Hin.
  destruct (extract_fields_names _ _ _ _ H Hin) as (patterns & Hp & Hn).
  unfold field_patterns in Hp. cbn [assoc] in Hp.
  destruct (String.eqb document_type "ISO_APPLICATION") eqn:E1.
  - apply String.eqb_eq in E1. left. split; [exact E1|].
    inversion Hp; subst patterns. exact Hn.
  - destruct (String.eqb document_type "BANK_STATEMENT") eqn:E2; [|discriminate].
    apply String.eqb_eq in E2. right. split; [exact E2|].
    inversion Hp; subst patterns. exact Hn.
Qed.

Lemma extract_fields_schema_witness :
  ("ISO_APPLICATION" = "ISO_APPLICATION" /\
   In "business_name" ["business_name"; "ein"; "address"; "phone"; "email"])
  \/
  ("ISO_APPLICATION" = "BANK_STATEMENT" /\
   In "business_name" ["account_number"; "balance"; "period"]).
Proof.
  apply (extract_fields_schema "ISO_APPLICATION"
           (<["text" := VStr "Business Name: Acme"]> (<["confidence" := VNum 99.996]> ∅))
           (<["business_name" := field_entry "Acme" (round2 99.996)]> ∅)
           "business_name").
  - vm_compute. reflexivity.
  - exists (field_entry "Acme" (round2 99.996)). vm_compute. reflexivity.
Defined.

(** Every entry of the output comes from a match of the pattern of its
    name in the text. *)
Lemma extract_loop_provenance (patterns : list (string * list Node)) (text : string)
    (ocr_results : Dict) :
  forall (acc fields : Dict) (name : string) (v : Value),
    extract_loop patterns (VStr text) ocr_results acc = Ok fields ->
    fields !! name = Some v ->
    acc !! name = Some v \/
    exists pattern g c,
      In (name, pattern) patterns /\
      re_search pattern text = Some g /\
      v = field_entry (strip g) c.
Proof.
  induction patterns as [|[field pattern] rest IH]; intros acc fields name v H Hv.
  - cbn in H. inversion H; subst. left. exact Hv.
  - cbn [extract_loop as_str res_bind] in H.
    destruct (re_search pattern text) as [g|] eqn:Eg.
    + apply res_bind_ok in H as (b & Hb & H).
      apply res_bind_ok in H as (q & Hq & H).
      destruct (IH _ _ _ _ H Hv) as [Hacc | (p' & g' & c & Hin & Hs & ->)].
      * destruct (decide (field = name)) as [->|Hne].
        -- rewrite lookup_insert_eq in Hacc. inversion Hacc; subst v.
           right. exists pattern, g, (_calculate_field_confidence (strip g) q).
           split; [left; reflexivity | auto].
        -- rewrite lookup_insert_ne in Hacc by exact Hne. left. exact Hacc.
      * right. exists p', g', c. split; [right; exact Hin | auto].
    + destruct (IH _ _ _ _ H Hv) as [Hacc | (p' & g' & c & Hin & Hs & ->)].
      * left. exact Hacc.
      * right. exists p', g', c. split; [right; exact Hin | auto].
Qed.

Lemma extract_fields_provenance (document_type : string) (ocr_results fields : Dict)
    (text name : string) (v : Value) :
  extract_fields document_type ocr_results = Ok fields ->
  ocr_results !! "text" = Some (VStr text) ->
  fields !! name = Some v ->
  exists patterns pattern g c,
    assoc document_type field_patterns = Some patterns /\
    In (name, pattern) patterns /\
    re_search pattern text = Some g /\
    v = field_entry (strip g) c.
Proof.
  intros H Ht Hv. unfold extract_fields, getitem in H. rewrite Ht in H.
  cbn [res_bind] in H.
  destruct (assoc document_type field_patterns) as [patterns|]; [|discriminate].
  destruct (extract_loop_provenance _ _ _ _ _ _ _ H Hv)
    as [Hacc | (pattern & g & c & Hin & Hs & ->)].
  - rewrite lookup_empty in Hacc. discriminate.
  - exists patterns, pattern, g, c. auto.
Qed.

(** X18. Every value [extract_fields] emits is cut out of the text of the
    result (no character is invented or altered) and carries no leading
    or trailing whitespace. *)
Theorem extract_fields_values_from_text (document_type : string)
    (ocr_results fields : Dict) (text name : string) (v : Value) :
  extract_fields document_type ocr_results = Ok fields ->
  ocr_results !! "text" = Some (VStr text) ->
  fields !! name = Some v ->
  exists value c,
    v = field_entry value c /\
    substring_of value text /\
    strip value = value.
Proof.
  intros H Ht Hv.
  destruct (extract_fields_provenance _ _ _ _ _ _ H Ht Hv)
    as (patterns & pattern & g & c & _ & _ & Hs & ->).
  exists (strip g), c. split; [reflexivity|]. split.
  - apply substring_of_trans with g; [apply strip_substring|].
    apply (re_search_substring _ _ _ Hs).
  - apply strip_idem.
Qed.

Lemma extract_fields_values_from_text_witness :
  exists value c,
    field_entry "Acme" (round2 99.996) = field_entry value c /\
    substring_of value "Business Name: Acme" /\
    strip value = value.
Proof.
  apply (extract_fields_values_from_text "ISO_APPLICATION"
           (<["text" := VStr "Business Name: Acme"]> (<["confidence" := VNum 99.996]> ∅))
           (<["business_name" := field_entry "Acme" (round2 99.996)]> ∅)
           "Business Name: Acme" "business_name").
  - vm_compute. reflexivity.
  - vm_compute. reflexivity.
  - vm_compute. reflexivity.
Defined.

Lemma digit_class (c : ascii) : atom_matches digit c = true -> isdigit c = true.
Proof.
  unfold atom_matches, digit. cbn. rewrite orb_false_r. auto.
Qed.

Lemma dash_class (c : ascii) : atom_matches (chr "-") c = true -> c = "-"%char.
Proof.
  destruct c as [[] [] [] [] [] [] [] []]; vm_compute; intros H;
    first [reflexivity | discriminate H].
Qed.

Lemma digit_solid (c : ascii) : isdigit c = true -> negb (isspace c) = true.
Proof.
  destruct c as [[] [] [] [] [] [] [] []]; vm_compute; intros H;
    first [reflexivity | discriminate H].
Qed.

Lemma length_two_max (s : string) :
  string_all (atom_matches (chr "-")) s = true ->
  (String.length s <= 1)%nat ->
  s = EmptyString \/ s = "-".
Proof.
  destruct s as [|c [|d s]]; cbn [String.length string_all]; intros H Hl.
  - left. reflexivity.
  - right. apply andb_true_iff in H as [Hc _]. apply dash_class in Hc. subst. reflexivity.
  - lia.
Qed.

(** X19. The value emitted under [ein] is made of two digits, an optional
    dash and seven digits, and nothing else. *)
Theorem extract_fields_ein_shape (ocr_results fields : Dict) (text : string) (v : Value) :
  extract_fields "ISO_APPLICATION" ocr_results = Ok fields ->
  ocr_results !! "text" = Some (VStr text) ->
  fields !! "ein" = Some v ->
  exists first dash last c,
    v = field_entry (String.append first (String.append dash last)) c /\
    String.length first = 2%nat /\ string_all isdigit first = true /\
    (dash = EmptyString \/ dash = "-") /\
    String.length last = 7%nat /\ string_all isdigit last = true.
Proof.
  intros H Ht Hv.
  destruct (extract_fields_provenance _ _ _ _ _ _ H Ht Hv)
    as (patterns & pattern & g & c & Hp & Hin & Hs & ->).
  unfold field_patterns in Hp. cbn [assoc] in Hp.
  rewrite String.eqb_refl in Hp. inversion Hp; subst patterns. clear Hp.
  assert (Hm : reps_match ein_group g).
  { destruct Hin as [E|[E|[E|[E|[E|[]]]]]]; inversion E; subst pattern.
    apply (re_search_group (lit "EIN" ++ [opt (chr ":"); star space])%list
             ein_group text g); [| | exact Hs]; repeat constructor; eauto. }
  unfold ein_group, times, opt in Hm.
  inversion Hm as [|? ? ? ? run1 rest1 Hall1 Hlo1 Hhi1 Hm1]; subst.
  inversion Hm1 as [|? ? ? ? run2 rest2 Hall2 Hlo2 Hhi2 Hm2]; subst.
  inversion Hm2 as [|? ? ? ? run3 rest3 Hall3 Hlo3 Hhi3 Hm3]; subst.
  inversion Hm3; subst. rewrite str_append_nil_r.
  cbn [within] in Hhi1, Hhi2, Hhi3.
  assert (Hd1 : string_all isdigit run1 = true)
    by (revert Hall1; apply string_all_impl, digit_class).
  assert (Hd3 : string_all isdigit run3 = true)
    by (revert Hall3; apply string_all_impl, digit_class).
  destruct (length_two_max run2 Hall2 Hhi2) as [Hdash | Hdash].
  - exists run1, run2, run3, c. subst run2.
    rewrite strip_solid.
    + repeat split; try assumption; try lia. left. reflexivity.
    + rewrite !string_all_append. cbn [string_all andb].
      rewrite (string_all_impl _ _ run1 digit_solid Hd1).
      rewrite (string_all_impl _ _ run3 digit_solid Hd3). reflexivity.
  - exists run1, run2, run3, c. subst run2.
    rewrite strip_solid.
    + repeat split; try assumption; try lia. right. reflexivity.
    + rewrite !string_all_append.
      rewrite (string_all_impl _ _ run1 digit_solid Hd1).
      rewrite (string_all_impl _ _ run3 digit_solid Hd3). reflexivity.
Qed.

Lemma extract_fields_ein_shape_witness :
  exists first dash last c,
    field_entry "12-3456789" (_calculate_field_confidence "12-3456789" 92)
    = field_entry (String.append first (String.append dash last)) c /\
    String.length first = 2%nat /\ string_all isdigit first = true /\
    (dash = EmptyString \/ dash = "-") /\
    String.length last = 7%nat /\ string_all isdigit last = true.
Proof.
  apply (extract_fields_ein_shape
           (<["text" := VStr (String.append "Business Name: Acme Corp"
                                (String LF "EIN: 12-3456789"))]>
            (<["confidence" := VNum 92]> ∅))
           (<["business_name" :=
                field_entry "Acme Corp" (_calculate_field_confidence "Acme Corp" 92)]>
            (<["ein" :=
                 field_entry "12-3456789"
                   (_calculate_field_confidence "12-3456789" 92)]> ∅))
           (String.append "Business Name: Acme Corp" (String LF "EIN: 12-3456789"))).
  - vm_compute. reflexivity.
  - vm_compute. reflexivity.
  - vm_compute. reflexivity.
Defined.

End FieldProvenance.

(** ** Numbers the OCR service produces *)

Section OcrNumbers.
Local Open Scope Q_scope.

(** X20. For a fixed value the field confidence never decreases when the
    base confidence increases; for a non-negative base it is non-negative
    and at least 0.8379 times the base (all three penalties) minus half a
    hundredth; and it is always a whole number of hundredths. *)
Theorem field_confidence_bounds (value : string) (b1 b2 : Q) :
  (b1 <= b2 ->
   _calculate_field_confidence value b1 <= _calculate_field_confidence value b2)
  /\
  (0 <= b1 ->
   0 <= _calculate_field_confidence value b1 /\
   b1 * 0.8379 - (1 # 200) <= _calculate_field_confidence value b1)
  /\
  exists n : Z, _calculate_field_confidence value b1 == inject_Z n / 100.
Proof.
  unfold _calculate_field_confidence.
  destruct (Nat.ltb (String.length value) 3);
    destruct (string_any isdigit value);
    destruct (string_any (fun c => negb (isalnum c)) value);
    (split; [|split]);
    try (intros H; apply round2_mono; lra);
    try (eexists; unfold round2; reflexivity);
    intros H;
    (split;
     [ apply Qle_trans with (round2 0); [vm_compute; discriminate | apply round2_mono; lra]
     | match goal with
       | |- _ <= round2 ?x => pose proof (round2_near x) as [Hn _]; lra
       end ]).
Qed.












End OcrNumbers.

(** ** The page loop, the compiled result and its storing *)

Section OcrRuns.
Local Open Scope Q_scope.

Variable py_float : string -> Res Q.
Variable ocr_settings : OcrSettings.

(** X22. A failed validation does not stop the result from being stored.
    For every result with a text and numeric confidence and processing
    time, as the compiled result always is, validation returns a status
    without raising, true only within the thresholds, and whatever the
    status the closing lines store the result on the document and return
    it: [ocr_result] is the result, [updated_at] the clock reading, and
    the processing status, the classification and the storage path are as
    before. *)
Theorem validate_and_store_stores (ocr_results : Dict) (c t : Q) (s : string)
    (stamp now : Time) (d : Document) :
  ocr_results !! "confidence" = Some (VNum c) ->
  ocr_results !! "processing_time" = Some (VNum t) ->
  ocr_results !! "text" = Some (VStr s) ->
  exists status metrics d',
    validate_results ocr_results = Ok (status, metrics) /\
    (status = true <->
     99 <= c /\ t <= 300 /\ (50 <= String.length s)%nat /\ 100 - c <= 1 # 100) /\
    validate_and_store ocr_results stamp now d = (Ok ocr_results, d') /\
    ocr_result d' = ocr_results /\
    updated_at d' = now /\
    processing_status d' = processing_status d /\
    document_type d' = document_type d /\
    classification_result d' = classification_result d /\
    storage_path d' = storage_path d.
Proof.
  intros Hc Ht Hs.
  destruct (validate_results_status ocr_results c t s Hc Ht Hs)
    as (status & metrics & Hv & Hiff).
  destruct (validate_and_store_run ocr_results c t s stamp now d Hc Ht Hs)
    as (d' & Hrun & Hstore).
  pose proof (store_ocr_result_state ocr_results stamp now d _ _ Ht Hc
                (ex_intro _ _ Hs)) as Hstate.
  rewrite Hstore in Hstate. cbn [snd] in Hstate.
  exists status, metrics, d'.
  split; [exact Hv|]. split; [exact Hiff|]. split; [exact Hrun|].
  subst d'. cbn. repeat split; reflexivity.
Qed.




(** X24. A row is dropped without its confidence being read when it has
    no twelfth column or a blank text, and without calling [float] when
    its confidence is the marker [-1]: such rows cannot make the page
    fail, whatever [float] does on their confidence column. *)
Theorem parse_line_skips_without_reading (line : string) :
  ~ has_text line \/ nth 10 (columns line) EmptyString = "-1" ->
  parse_line py_float line = Ok None.
Proof.
  intros [Hno | Hmark]; [apply parse_line_blank; exact Hno|].
  unfold parse_line.
  destruct (Nat.ltb 11 (length (split_on TAB line))
            && negb (is_empty (strip (nth 11 (split_on TAB line) EmptyString))));
    [|reflexivity].
  unfold columns in Hmark. rewrite Hmark. reflexivity.
Qed.

End OcrRuns.

Section ValidationEdges.
Local Open Scope Q_scope.

(** X23. [validate_results] reads the keys in the order confidence,
    processing_time, text and raises [KeyError] for the first one
    missing.  With the three keys, a text and a numeric confidence below
    99 it returns a failed status whatever the processing time holds; only
    from confidence 99 on is the processing time compared, and one that is
    no number then raises [TypeError]. *)
Theorem validate_results_edges (ocr_results : Dict) :
  (ocr_results !! "confidence" = None ->
   validate_results ocr_results = Raise (KeyError "confidence"))
  /\
  (is_Some (ocr_results !! "confidence") ->
   ocr_results !! "processing_time" = None ->
   validate_results ocr_results = Raise (KeyError "processing_time"))
  /\
  (is_Some (ocr_results !! "confidence") ->
   is_Some (ocr_results !! "processing_time") ->
   ocr_results !! "text" = None ->
   validate_results ocr_results = Raise (KeyError "text"))
  /\
  (forall c vt s,
     ocr_results !! "confidence" = Some (VNum c) ->
     ocr_results !! "processing_time" = Some vt ->
     ocr_results !! "text" = Some (VStr s) ->
     (c < 99 -> exists metrics, validate_results ocr_results = Ok (false, metrics)) /\
     (99 <= c -> (forall t, vt <> VNum t) ->
      exists msg, validate_results ocr_results = Raise (TypeError msg))).
Proof.
  unfold validate_results, getitem. repeat split.
  - intros ->. reflexivity.
  - intros [v ->] ->. reflexivity.
  - intros [v ->] [w ->] ->. reflexivity.
  - intros Hlt. rewrite H, H0, H1. cbn [res_bind py_len as_num].
    assert (E : Qgeb c (min_confidence thresholds) = false)
      by (apply Qgeb_false; unfold thresholds; cbn [min_confidence]; lra).
    rewrite E. cbn [res_bind]. eexists. reflexivity.
  - intros Hge Hnum. rewrite H, H0, H1. cbn [res_bind py_len as_num].
    assert (E : Qgeb c (min_confidence thresholds) = true)
      by (apply Qgeb_true; unfold thresholds; cbn [min_confidence]; lra).
    rewrite E. destruct vt as [|?|t|?|?]; cbn; eauto.
    exfalso. apply (Hnum t). reflexivity.
Qed.

End ValidationEdges.

(** ** Logger level and required environment *)

Section Configuration.

Lemma upper_idem (s : string) : upper (upper s) = upper s.
Proof.
  unfold upper. rewrite string_map_map.
  apply string_map_ext, upper_upper_char.
Qed.

Lemma upper_lower (s : string) : upper (lower s) = upper s.
Proof.
  unfold upper, lower. rewrite string_map_map.
  apply string_map_ext, upper_lower_char.
Qed.

Lemma is_empty_map (f : ascii -> ascii) (s : string) :
  is_empty (string_map f s) = is_empty s.
Proof. destruct s; reflexivity. Qed.

Lemma assoc_levels (name : string) :
  default 20%Z (assoc name LOG_LEVELS) ∈ [10%Z; 20%Z; 30%Z; 40%Z; 50%Z].
Proof.
  unfold LOG_LEVELS. cbn [assoc].
  repeat match goal with
         | |- context [String.eqb ?a ?b] => destruct (String.eqb a b)
         end; cbn; repeat constructor.
Qed.

(** X26. The level [get_logger] sets is always one of the five standard
    levels; a name that is none of DEBUG, INFO, WARNING, ERROR, CRITICAL
    silently gives INFO; names are read without regard to case; and a
    non-empty argument wins over the environment variable. *)
Theorem get_logger_level_spec (log_level env_log_level : option string) :
  get_logger_level log_level env_log_level ∈ [10%Z; 20%Z; 30%Z; 40%Z; 50%Z]
  /\
  (forall l, l <> EmptyString ->
     get_logger_level (Some l) env_log_level = get_logger_level (Some l) None /\
     get_logger_level (Some (upper l)) env_log_level
       = get_logger_level (Some l) env_log_level /\
     get_logger_level (Some (lower l)) env_log_level
       = get_logger_level (Some l) env_log_level /\
     (assoc (upper l) LOG_LEVELS = None ->
      get_logger_level (Some l) env_log_level = 20%Z))
  /\
  get_logger_level None None = 20%Z
  /\
  get_logger_level (Some EmptyString) env_log_level
    = get_logger_level None env_log_level.
Proof.
  split; [|split; [|split]].
  - unfold get_logger_level. apply assoc_levels.
  - intros l Hne. apply is_empty_false in Hne.
    unfold get_logger_level, upper, lower.
    rewrite !is_empty_map, Hne.
    fold (upper l). fold (lower l). fold (upper (upper l)). fold (upper (lower l)).
    rewrite upper_idem, upper_lower.
    repeat split. intros ->. reflexivity.
  - reflexivity.
  - reflexivity.
Qed.

Lemma env_unset_false (environ : gmap string string) (var : string) :
  env_unset environ var = false <->
  exists value, environ !! var = Some value /\ value <> EmptyString.
Proof.
  unfold env_unset. destruct (environ !! var) as [value|].
  - rewrite is_empty_false. split; [eauto | intros (v & Hv & Hne); congruence].
  - split; [discriminate | intros (v & Hv & _); discriminate].
Qed.

Lemma filter_nil_iff {A} (p : A -> bool) (l : list A) :
  List.filter p l = [] <-> forall x, In x l -> p x = false.
Proof.
  induction l as [|a l IH]; cbn [List.filter].
  - split; [intros _ x [] | reflexivity].
  - destruct (p a) eqn:E.
    + split; [discriminate|]. intros H. specialize (H a (or_introl eq_refl)). congruence.
    + rewrite IH. split.
      * intros H x [<- | Hx]; auto.
      * intros H x Hx. apply H. right. exact Hx.
Qed.

(** X27. The check that closes [load_environment_variables] passes
    exactly when each of the six required variables is set to a non-empty
    value: a variable set to the empty string counts as missing.
    Otherwise it raises [ValueError], and the message lists the missing
    variables in the order of the list. *)
Theorem load_environment_variables_spec (environ : gmap string string) :
  (load_environment_variables environ = Ok tt <->
   forall var, In var required_vars ->
               exists value, environ !! var = Some value /\ value <> EmptyString)
  /\
  (load_environment_variables environ <> Ok tt ->
   load_environment_variables environ =
   Raise (ValueError
            (String.append "Missing required environment variables: "
               (join ", " (List.filter (env_unset environ) required_vars))))).
Proof.
  unfold load_environment_variables.
  destruct (List.filter (env_unset environ) required_vars) as [|m ms] eqn:E.
  - split; [|congruence]. split; [|reflexivity].
    intros _ var Hin. apply env_unset_false.
    apply (proj1 (filter_nil_iff _ _) E var Hin).
  - split; [|reflexivity]. split; [discriminate|].
    intros H. exfalso.
    assert (Hnil : List.filter (env_unset environ) required_vars = []).
    { apply filter_nil_iff. intros var Hin. apply env_unset_false, H, Hin. }
    congruence.
Qed.

End Configuration.

(** ** Worked inputs of the further properties *)

Section FurtherWorkedInputs.
Local Open Scope Q_scope.




(** A result with confidence 92 fails validation and is stored all the
    same. *)
Lemma validate_and_store_stores_witness :
  exists metrics d',
    validate_results
      (compile_results default_settings
         (mkLoopState ["Hello"] [92] (Some 92)) 12 1)
    = Ok (false, metrics) /\
    validate_and_store
      (compile_results default_settings
         (mkLoopState ["Hello"] [92] (Some 92)) 12 1)
      1500%Z 1600%Z sample_document
    = (Ok (compile_results default_settings
             (mkLoopState ["Hello"] [92] (Some 92)) 12 1), d') /\
    ocr_result d'
    = compile_results default_settings (mkLoopState ["Hello"] [92] (Some 92)) 12 1.
Proof.
  destruct (validate_and_store_stores
              (compile_results default_settings
                 (mkLoopState ["Hello"] [92] (Some 92)) 12 1)
              (mean [92]) 12 "Hello" 1500%Z 1600%Z sample_document)
    as (status & metrics & d' & Hv & Hiff & Hrun & Hocr & _).
  - apply compile_results_confidence.
  - apply compile_results_processing_time.
  - apply compile_results_text.
  - exists metrics, d'. split; [|split; assumption].
    destruct status; [|exact Hv].
    exfalso. destruct (proj1 Hiff eq_refl) as [H99 _].
    vm_compute in H99. apply H99. reflexivity.
Defined.

(** A marker row is dropped even when [float] fails on everything. *)
Lemma parse_line_skips_without_reading_witness :
  parse_line (fun _ => Raise (ValueError "could not convert string to float"))
    (word_line "-1" "x") = Ok None.
Proof.
  apply parse_line_skips_without_reading.
  right. vm_compute. reflexivity.
Defined.

End FurtherWorkedInputs.
